(** * Elloria storefront: the cart store and the shop's filter and sort

    A shallow embedding of [CartProvider] (the cart context: items, promo
    code, derived totals, persistence in [localStorage]) and of the
    filter and sort of the [Shop] page over the static catalog of
    [ProductCarousel].

    JavaScript numbers are IEEE 754 doubles.  Prices are kept as such, as
    the kernel's primitive floats, so that [NaN], the zeros, negative and
    infinite prices are all values of the model.  Quantities, discounts,
    product identifiers and timestamps are integers in the program and are
    kept in [Z]: on integers below 2^53 in magnitude the double operations
    the store uses on them (addition, [Math.min], comparison) are exact.
    Numbers that are not integers ([NaN], fractions) are so not among the
    quantities of the model.

    What the browser provides and the sources only call ([JSON], the
    calendar of [Date], the conversion of objects to numbers) is a
    parameter of the model, [Cart.Browser]. *)

From Stdlib Require Import ZArith List Bool String Ascii Lia Floats Sorted Permutation.
From stdpp Require Import gmap strings pretty.
Import ListNotations.

Set Warnings "-inexact-float,-register-all".

Local Open Scope string_scope.
Local Open Scope Z_scope.

(** ** JavaScript primitives used by the store *)

Module JS.

(** A number-typed property that may be missing on the object
    ([None] is [undefined]). *)
Definition number : Type := option float.

(** The double that an integer [z] of the program is: the nearest one,
    [z] itself up to a magnitude of 2^53. *)
Definition of_Z (z : Z) : float :=
  SF2Prim (binary_normalize prec emax z 0 false).

(** ToNumber on such a property: [undefined] converts to [NaN]. *)
Definition ToNumber (x : number) : float :=
  match x with
  | None => PrimFloat.nan
  | Some f => f
  end.

(** [isNaN(x)]. *)
Definition isNaN (x : number) : bool := PrimFloat.is_nan (ToNumber x).

(** [!x], that is the negation of ToBoolean: [undefined], [+0], [-0] and
    [NaN] are falsy, every other number is truthy. *)
Definition logical_not (x : number) : bool :=
  match x with
  | None => true
  | Some f => PrimFloat.is_zero f || PrimFloat.is_nan f
  end.

(** [x * n] where [n] is an integer of the program. *)
Definition mul (x : number) (n : Z) : float := (ToNumber x * of_Z n)%float.

(** [Math.min] on integers. *)
Definition Math_min (a b : Z) : Z := Z.min a b.

(** [c.toLowerCase()] on one ASCII character. *)
Definition lower_ascii (c : ascii) : ascii :=
  let n := nat_of_ascii c in
  if (65 <=? n)%nat && (n <=? 90)%nat then ascii_of_nat (n + 32) else c.

(** [s.toLowerCase()], on strings of ASCII characters. *)
Fixpoint toLowerCase (s : string) : string :=
  match s with
  | EmptyString => EmptyString
  | String c s' => String (lower_ascii c) (toLowerCase s')
  end.

(** [pat] is a prefix of [s]. *)
Fixpoint startsWith (s pat : string) : bool :=
  match pat, s with
  | EmptyString, _ => true
  | String a pat', String b s' => Ascii.eqb a b && startsWith s' pat'
  | String _ _, EmptyString => false
  end.

(** [s.includes(pat)]: [pat] occurs in [s] at some position. *)
Fixpoint includes (s pat : string) : bool :=
  startsWith s pat ||
  match s with
  | EmptyString => false
  | String _ s' => includes s' pat
  end.

(** Outcome of running code that may throw. *)
Inductive Error : Type := SyntaxError | TypeError | SecurityError.

Inductive outcome (A : Type) : Type :=
| Return (a : A)
| Throw (e : Error).
Arguments Return {A} a.
Arguments Throw {A} e.

Definition bind {A B : Type} (c : outcome A) (k : A -> outcome B) : outcome B :=
  match c with
  | Return a => k a
  | Throw e => Throw e
  end.

(** [try { body } catch (error) { handler }]. *)
Definition try_catch {A : Type} (body : outcome A) (handler : Error -> outcome A)
  : outcome A :=
  match body with
  | Return a => Return a
  | Throw e => handler e
  end.

(** [Math.max] on integers. *)
Definition Math_max (a b : Z) : Z := Z.max a b.

(** The white space [parseInt] skips, in a string held as UTF-8: the
    characters of one byte (tab, line feed, vertical tab, form feed,
    carriage return, space), of two bytes (U+00A0) and of three bytes
    (U+1680, U+2000 to U+200A, U+2028, U+2029, U+202F, U+205F, U+3000,
    U+FEFF). *)
Definition is_white_space (c : ascii) : bool :=
  let n := nat_of_ascii c in
  ((9 <=? n)%nat && (n <=? 13)%nat) || (n =? 32)%nat.

Definition is_white_space2 (c1 c2 : ascii) : bool :=
  (nat_of_ascii c1 =? 194)%nat && (nat_of_ascii c2 =? 160)%nat.

Definition is_white_space3 (c1 c2 c3 : ascii) : bool :=
  let n1 := nat_of_ascii c1 in
  let n2 := nat_of_ascii c2 in
  let n3 := nat_of_ascii c3 in
  ((n1 =? 225)%nat && (n2 =? 154)%nat && (n3 =? 128)%nat)
  || ((n1 =? 226)%nat && (n2 =? 128)%nat
      && (((128 <=? n3)%nat && (n3 <=? 138)%nat)
          || (n3 =? 168)%nat || (n3 =? 169)%nat || (n3 =? 175)%nat))
  || ((n1 =? 226)%nat && (n2 =? 129)%nat && (n3 =? 159)%nat)
  || ((n1 =? 227)%nat && (n2 =? 128)%nat && (n3 =? 128)%nat)
  || ((n1 =? 239)%nat && (n2 =? 187)%nat && (n3 =? 191)%nat).

Fixpoint trimStart (s : string) : string :=
  match s with
  | EmptyString => EmptyString
  | String c1 s1 =>
      if is_white_space c1 then trimStart s1
      else
        match s1 with
        | EmptyString => s
        | String c2 s2 =>
            if is_white_space2 c1 c2 then trimStart s2
            else
              match s2 with
              | EmptyString => s
              | String c3 s3 =>
                  if is_white_space3 c1 c2 c3 then trimStart s3 else s
              end
        end
  end.

(** The value of [c] as a digit of the radix, if it is one. *)
Definition digit_value (radix : Z) (c : ascii) : option Z :=
  let n := Z.of_nat (nat_of_ascii c) in
  let value :=
    if (48 <=? n) && (n <=? 57) then Some (n - 48)
    else if (97 <=? n) && (n <=? 122) then Some (n - 87)
    else if (65 <=? n) && (n <=? 90) then Some (n - 55)
    else None in
  match value with
  | Some d => if d <? radix then Some d else None
  | None => None
  end.

(** The integer written by the longest prefix of [s] made of digits of
    the radix, continuing [acc]; [None] as long as no digit was read. *)
Fixpoint parse_digits (radix : Z) (acc : option Z) (s : string) : option Z :=
  match s with
  | EmptyString => acc
  | String c s' =>
      match digit_value radix c with
      | Some d => parse_digits radix (Some (radix * default 0 acc + d)) s'
      | None => acc
      end
  end.

(** [parseInt(s)] without a radix: white space is skipped, then a sign,
    then a [0x] or [0X] prefix that switches to radix 16; the digits that
    follow are read, whatever comes behind them.  [None] is [NaN].  The
    result of the program is the double nearest to this integer; the
    callers here only test it against zero and clamp it into [1, 99],
    which gives the same on both. *)
Definition parseInt (s : string) : option Z :=
  let s1 := trimStart s in
  let '(sign, s2) :=
    match s1 with
    | String "-" rest => (-1, rest)
    | String "+" rest => (1, rest)
    | _ => (1, s1)
    end in
  let '(radix, s3) :=
    match s2 with
    | String "0" (String "x" rest) => (16, rest)
    | String "0" (String "X" rest) => (16, rest)
    | _ => (10, s2)
    end in
  match parse_digits radix None s3 with
  | Some n => Some (sign * n)
  | None => None
  end.

(** [x || d] for a number [x] that is an integer or [NaN]: [NaN] and the
    zeros are falsy. *)
Definition or_else (x : option Z) (d : Z) : Z :=
  match x with
  | None => d
  | Some 0 => d
  | Some n => n
  end.

(** [String(n)] for an integer [n]: its decimal writing. *)
Definition ToString (n : Z) : string := pretty n.

End JS.

#[global] Instance outcome_ret : MRet JS.outcome := @JS.Return.
#[global] Instance outcome_bind : MBind JS.outcome :=
  fun A B k c => JS.bind c k.

(** ** What [JSON.parse] returns *)

Module Json.

Inductive value : Type :=
| null
| boolean (b : bool)
| number (f : float)
| text (s : string)
| array (elements : list value)
| object (members : list (string * value)).

(** The own property [key] of an object with these members, each key
    once; [None] is [undefined]. *)
Fixpoint member (members : list (string * value)) (key : string)
  : option value :=
  match members with
  | [] => None
  | (k, v) :: rest => if String.eqb k key then Some v else member rest key
  end.

(** The property [key] as a destructuring [const { key } = v] reads it,
    for the keys of an envelope: [null] cannot be destructured, and only
    an object has such a property. *)
Definition get (v : value) (key : string) : JS.outcome (option value) :=
  match v with
  | null => JS.Throw JS.TypeError
  | object members => JS.Return (member members key)
  | _ => JS.Return None
  end.

Definition is_null (v : value) : bool :=
  match v with
  | null => true
  | _ => false
  end.

End Json.

(** ** Doubles in order *)

Module Double.

(** A double that is a number, scaled by 2^1074 so as to be an integer:
    the order of doubles is the order of these integers.  The infinities
    stand beyond every finite double. *)
Definition rank (x : spec_float) : Z :=
  match x with
  | S754_zero _ => 0
  | S754_infinity s => cond_Zopp s (2 ^ 2200)
  | S754_nan => 0
  | S754_finite s m e => cond_Zopp s (Zpos m * 2 ^ (e + 1074))
  end.

Definition is_number (x : spec_float) : bool :=
  match x with
  | S754_nan => false
  | _ => true
  end.

(** A double that is not zero and carries the sign [s]. *)
Definition signed (s : bool) (x : spec_float) : Prop :=
  match x with
  | S754_finite s' _ _ => s' = s
  | S754_infinity s' => s' = s
  | _ => False
  end.

End Double.

(** ** The cart store ([CartProvider]) *)

Module Cart.

Record CartItem : Type := {
  id : string;
  name : string;
  description : string;
  image : string;
  quantity : Z;
  price : JS.number;
}.

Record PromoCode : Type := {
  code : string;
  discount : Z;
}.

Definition VALID_PROMO_CODES : list PromoCode :=
  [ {| code := "WELCOME10"; discount := 10 |};
    {| code := "SAVE20"; discount := 20 |} ].

Definition CART_STORAGE_KEY : string := "elloria_cart".
Definition CART_EXPIRY_DAYS : Z := 7.

(** The persisted envelope [{ items, expiryDate }]. *)
Module Envelope.
Record t : Type := {
  items : list CartItem;
  expiryDate : Z;
}.
End Envelope.

(** [{ ...item, quantity }]. *)
Definition with_quantity (item : CartItem) (quantity' : Z) : CartItem :=
  {| id := id item; name := name item; description := description item;
     image := image item; quantity := quantity'; price := price item |}.

(** The React state of the provider together with the browser's
    [localStorage]. *)
Record Store : Type := {
  items : list CartItem;
  activePromoCode : option PromoCode;
  isCartAnimating : bool;
  localStorage : gmap string string;
}.

Definition setItems (f : list CartItem -> list CartItem) (s : Store) : Store :=
  {| items := f (items s); activePromoCode := activePromoCode s;
     isCartAnimating := isCartAnimating s; localStorage := localStorage s |}.

Definition setActivePromoCode (p : option PromoCode) (s : Store) : Store :=
  {| items := items s; activePromoCode := p;
     isCartAnimating := isCartAnimating s; localStorage := localStorage s |}.

Definition setIsCartAnimating (b : bool) (s : Store) : Store :=
  {| items := items s; activePromoCode := activePromoCode s;
     isCartAnimating := b; localStorage := localStorage s |}.

Definition setLocalStorage (f : gmap string string -> gmap string string)
  (s : Store) : Store :=
  {| items := items s; activePromoCode := activePromoCode s;
     isCartAnimating := isCartAnimating s; localStorage := f (localStorage s) |}.

(** What a handler reports to the outside: the error console and the
    titles of the toasts ([console.log] traces and the descriptions of the
    toasts are left out). *)
Inductive Notice : Type :=
| console_error (msg : string)
| toast_success (msg : string)
| toast_error (msg : string).

(** The result of running an event handler to its end: the store it
    leaves, whether it called [setItems], and what it reported.  Every
    call of [setItems] in the provider passes a freshly built array
    ([map], [filter], a spread or a literal), so the [items] dependency of
    the persistence effect changes exactly when [setItems] was called. *)
Record Handled : Type := {
  after : Store;
  itemsSet : bool;
  notices : list Notice;
}.

(** The updater [addItem] passes to [setItems]. *)
Definition addItem_updater (newItem : CartItem) (currentItems : list CartItem)
  : list CartItem :=
  let existingItem :=
    find (fun item => String.eqb (id item) (id newItem)) currentItems in
  match existingItem with
  | Some _ =>
      map (fun item =>
             if String.eqb (id item) (id newItem)
             then with_quantity item
                    (JS.Math_min 99 (quantity item + quantity newItem))
             else item)
          currentItems
  | None =>
      currentItems ++
      [with_quantity newItem (JS.Math_min 99 (quantity newItem))]
  end.

Definition addItem (newItem : CartItem) (s : Store) : Handled :=
  if JS.logical_not (price newItem) || JS.isNaN (price newItem) then
    {| after := s; itemsSet := false;
       notices := [console_error "Invalid price for item:"] |}
  else
    {| after := setIsCartAnimating true (setItems (addItem_updater newItem) s);
       itemsSet := true;
       notices := [toast_success "Item added to cart"] |}.

(** The condition of the guard at the head of [addItem], by itself. *)
Definition rejects (newItem : CartItem) : bool :=
  JS.logical_not (price newItem) || JS.isNaN (price newItem).

(** The updater [updateQuantity] passes to [setItems]. *)
Definition updateQuantity_updater (id' : string) (quantity' : Z)
  (currentItems : list CartItem) : list CartItem :=
  map (fun item =>
         if String.eqb (id item) id' then with_quantity item quantity' else item)
      currentItems.

(** The guard of [updateQuantity] as the program evaluates it, on the
    double that the quantity is.  Both comparisons fail on [NaN], which
    the guard so lets through. *)
Definition quantity_refused (quantity' : float) : bool :=
  (quantity' <? 1)%float || (99 <? quantity')%float.

(** [updateQuantity] on a quantity that is an integer, where the guard
    above is the same test on the integer. *)
Definition updateQuantity (id' : string) (quantity' : Z) (s : Store) : Handled :=
  if (quantity' <? 1) || (quantity' >? 99) then
    {| after := s; itemsSet := false; notices := [] |}
  else
    {| after := setItems (updateQuantity_updater id' quantity') s;
       itemsSet := true; notices := [] |}.

Definition removeItem (id' : string) (s : Store) : Handled :=
  {| after :=
       setItems (List.filter (fun item => negb (String.eqb (id item) id'))) s;
     itemsSet := true;
     notices := [toast_success "Item removed from cart"] |}.

Definition clearCart (s : Store) : Handled :=
  {| after :=
       setLocalStorage (delete CART_STORAGE_KEY)
         (setActivePromoCode None (setItems (fun _ => []) s));
     itemsSet := true;
     notices := [toast_success "Cart cleared"] |}.

Definition applyPromoCode (code' : string) (s : Store) : Handled :=
  let promoCode :=
    find (fun promo =>
            String.eqb (JS.toLowerCase (code promo)) (JS.toLowerCase code'))
         VALID_PROMO_CODES in
  match promoCode with
  | Some promo =>
      {| after := setActivePromoCode (Some promo) s; itemsSet := false;
         notices := [toast_success "Promo code applied successfully!"] |}
  | None =>
      {| after := s; itemsSet := false;
         notices := [toast_error "Invalid promo code"] |}
  end.

Definition removePromoCode (s : Store) : Handled :=
  {| after := setActivePromoCode None s; itemsSet := false;
     notices := [toast_success "Promo code removed"] |}.

(** The callback [addItem] hands to [setTimeout]. *)
Definition animationTimeout (s : Store) : Handled :=
  {| after := setIsCartAnimating false s; itemsSet := false; notices := [] |}.

(** *** Derived reads, computed at every render *)

Definition subtotal (s : Store) : float :=
  fold_left
    (fun sum item =>
       let itemTotal := JS.mul (price item) (quantity item) in
       if PrimFloat.is_nan itemTotal then sum else (sum + itemTotal)%float)
    (items s) 0%float.

Definition total (s : Store) : float :=
  match activePromoCode s with
  | Some promo => (subtotal s * (1 - JS.of_Z (discount promo) / 100))%float
  | None => subtotal s
  end.

Definition totalItems (s : Store) : Z :=
  fold_left (fun sum item => sum + quantity item) (items s) 0.

(** *** Persistence and the life of the provider *)

(** What the provider calls of the browser.  [JSON_parse] throws a
    [SyntaxError] on a text that is not JSON.  [ToNumber_object] is the
    conversion to a number of a parsed string, array or object, which may
    throw.  [Date_plus_days t n] is the time value of a date of time value
    [t] after [setDate(getDate() + n)]: [n] calendar days later in the
    time zone of the browser.  [items_of] gives the cart items that an
    array of parsed values stands for, when its elements have the fields
    of cart items. *)
Record Browser : Type := {
  JSON_stringify : Envelope.t -> string;
  JSON_parse : string -> JS.outcome Json.value;
  ToNumber_object : Json.value -> JS.outcome float;
  Date_plus_days : Z -> Z -> Z;
  items_of : list Json.value -> option (list CartItem);
}.

Section Persistence.

Variable browser : Browser.

Definition MS_PER_DAY : Z := 86400000.

(** ToNumber on what a destructuring has read. *)
Definition ToNumber (v : option Json.value) : JS.outcome float :=
  match v with
  | None => mret PrimFloat.nan
  | Some Json.null => mret 0%float
  | Some (Json.boolean b) => mret (if b then 1%float else 0%float)
  | Some (Json.number f) => mret f
  | Some other => ToNumber_object browser other
  end.

(** The initializer of the [items] state, which returns what it read as
    it is.  [window] tells whether [typeof window] is not ['undefined'];
    [blocked] whether the browser denies the access to [localStorage],
    which then throws, outside the [try] block; [now] is
    [new Date().getTime()].  Inside the [try] block [Some v] stands for
    [return v] and [None] for falling through to the final [return []];
    of the returned values [None] is [undefined]. *)
Definition initialItems (window blocked : bool) (storage : gmap string string)
  (now : Z) : JS.outcome (option Json.value) :=
  if negb window then mret (Some (Json.array []))
  else if blocked then JS.Throw JS.SecurityError
  else
    match storage !! CART_STORAGE_KEY with
    | Some savedCart =>
        if negb (String.eqb savedCart "") then
          returned ←
            JS.try_catch
              (parsed ← JSON_parse browser savedCart;
               items ← Json.get parsed "items";
               expiryDate ← Json.get parsed "expiryDate";
               limit ← ToNumber expiryDate;
               if (JS.of_Z now <? limit)%float
               then mret (Some items)
               else mret None)
              (fun error => mret None);
          match returned with
          | Some restored => mret restored
          | None => mret (Some (Json.array []))
          end
        else mret (Some (Json.array []))
    | None => mret (Some (Json.array []))
    end.

(** The first render calls [items.reduce] with a callback that reads
    [item.price] and [item.quantity]: it throws unless [items] is an
    array, and an array without [null]. *)
Definition first_render (restored : option Json.value)
  : JS.outcome (list Json.value) :=
  match restored with
  | Some (Json.array elements) =>
      if existsb Json.is_null elements then JS.Throw JS.TypeError
      else mret elements
  | _ => JS.Throw JS.TypeError
  end.

(** The effect that depends on [items]: a full rewrite of the envelope,
    expiring [CART_EXPIRY_DAYS] calendar days after [now]. *)
Definition persistEffect (window : bool) (now : Z) (s : Store) : Store :=
  if negb window then s
  else
    let expiryDate := Date_plus_days browser now CART_EXPIRY_DAYS in
    setLocalStorage
      (insert CART_STORAGE_KEY
         (JSON_stringify browser
            {| Envelope.items := items s; Envelope.expiryDate := expiryDate |}))
      s.

(** Mounting the provider: the state initializers, the first render,
    then the first run of the effect.  [Some s] is the mounted provider;
    [None] is a provider mounted on an array that does not stand for cart
    items, which the model does not follow. *)
Definition mount (window blocked : bool) (storage : gmap string string)
  (now : Z) : JS.outcome (option Store) :=
  restored ← initialItems window blocked storage now;
  elements ← first_render restored;
  match items_of browser elements with
  | Some restored_items =>
      mret (Some (persistEffect window now
                    {| items := restored_items; activePromoCode := None;
                       isCartAnimating := false; localStorage := storage |}))
  | None => mret None
  end.

(** What can happen to a mounted provider. *)
Inductive Action : Type :=
| AddItem (newItem : CartItem)
| UpdateQuantity (id' : string) (quantity' : Z)
| RemoveItem (id' : string)
| ClearCart
| ApplyPromoCode (code' : string)
| RemovePromoCode
| AnimationTimeout.

Definition handle (a : Action) (s : Store) : Handled :=
  match a with
  | AddItem newItem => addItem newItem s
  | UpdateQuantity id' quantity' => updateQuantity id' quantity' s
  | RemoveItem id' => removeItem id' s
  | ClearCart => clearCart s
  | ApplyPromoCode code' => applyPromoCode code' s
  | RemovePromoCode => removePromoCode s
  | AnimationTimeout => animationTimeout s
  end.

(** After the handler React renders again and, when [items] is a new
    array, runs the persistence effect (in a browser, at time [now]). *)
Definition commit (now : Z) (h : Handled) : Store :=
  if itemsSet h then persistEffect true now (after h) else after h.

Definition dispatch (now : Z) (a : Action) (s : Store) : Store :=
  commit now (handle a s).

(** A run of timed events, the earliest first. *)
Fixpoint run (events : list (Z * Action)) (s : Store) : Store :=
  match events with
  | [] => s
  | (now, a) :: rest => run rest (dispatch now a s)
  end.

(** The stores a provider can be in. *)
Inductive reachable : Store -> Prop :=
| reachable_mount window blocked storage now s :
    mount window blocked storage now = JS.Return (Some s) -> reachable s
| reachable_dispatch now a s :
    reachable s -> reachable (dispatch now a s).

(** The time of the last write of the storage entry in a run: that of the
    last event whose handler has set the items, if any, else [written]. *)
Fixpoint written_after (events : list (Z * Action)) (s : Store) (written : Z)
  : Z :=
  match events with
  | [] => written
  | (now, a) :: rest =>
      written_after rest (dispatch now a s)
        (if itemsSet (handle a s) then now else written)
  end.

(** Calls of [addItem], each with the time of its render, as events. *)
Definition add_events (calls : list (Z * CartItem)) : list (Z * Action) :=
  map (fun call => (fst call, AddItem (snd call))) calls.

(** The sum of the quantities requested by the calls. *)
Definition requested (calls : list (Z * CartItem)) : Z :=
  fold_right (fun call acc => quantity (snd call) + acc) 0 calls.

End Persistence.

End Cart.

(** ** The static catalog ([ProductCarousel]) *)

Module Specifications.
Record t : Type := {
  length : string;
  absorption : string;
  quantity : string;
  material : string;
  features : string;
}.
End Specifications.

Module Product.
Record t : Type := {
  id : Z;
  name : string;
  description : string;
  image : string;
  price : float;
  features : list string;
  specifications : Specifications.t;
}.
End Product.

Definition products : list Product.t :=
  [ {| Product.id := 1;
       Product.name := "Ultra-Thin 290mm";
       Product.description := "Perfect for light to medium flow days. Features our innovative ultra-thin design for maximum comfort.";
       Product.image := "/lovable-uploads/0df96e81-8434-4436-b873-45aa9c6814cf.png";
       Product.price := 6.99%float;
       Product.features :=
         [ "Ultra-thin design for maximum comfort";
           "Suitable for light to medium flow";
           "Breathable cotton-like cover";
           "Up to 8 hours of protection";
           "Dermatologically tested" ];
       Product.specifications :=
         {| Specifications.length := "290mm";
            Specifications.absorption := "Light to Medium";
            Specifications.quantity := "10 pads per pack";
            Specifications.material := "Cotton-like cover with absorbent core";
            Specifications.features := "Wings, Breathable, Hypoallergenic" |} |};
    {| Product.id := 2;
       Product.name := "Maxi Pads 350mm";
       Product.description := "Ideal for medium to heavy flow days. Enhanced absorption technology for complete confidence.";
       Product.image := "/lovable-uploads/5064d341-66ba-411d-8a91-8781d383f256.png";
       Product.price := 7.99%float;
       Product.features :=
         [ "Enhanced absorption technology";
           "Ideal for medium to heavy flow";
           "Extra-long for overnight protection";
           "Soft cotton-like surface";
           "Leak guard barriers" ];
       Product.specifications :=
         {| Specifications.length := "350mm";
            Specifications.absorption := "Medium to Heavy";
            Specifications.quantity := "8 pads per pack";
            Specifications.material := "Cotton-like cover with super absorbent core";
            Specifications.features := "Wings, Extra Coverage, Leak Guards" |} |};
    {| Product.id := 3;
       Product.name := "Overnight 425mm";
       Product.description := "Maximum protection for peaceful nights. Up to 600ml capacity for ultimate security.";
       Product.image := "/lovable-uploads/42c0dc8a-d937-4255-9c12-d484082d26e6.png";
       Product.price := 8.99%float;
       Product.features :=
         [ "Maximum overnight protection";
           "Up to 600ml absorption capacity";
           "Extra-wide back for sleeping";
           "Soft and quiet material";
           "12-hour protection" ];
       Product.specifications :=
         {| Specifications.length := "425mm";
            Specifications.absorption := "Heavy to Very Heavy";
            Specifications.quantity := "6 pads per pack";
            Specifications.material := "Premium cotton-like cover with maximum absorbent core";
            Specifications.features := "Wings, Extra Wide Back, Maximum Coverage" |} |} ].

(** ** Filter and sort of the shop page ([Shop]) *)

Module Shop.

Inductive SortOption : Type := featured | price_low | price_high | newest.
Inductive FilterOption : Type := all | ultra_thin | maxi | overnight.

(** The string a [FilterOption] is at run time. *)
Definition filter_tag (filterBy : FilterOption) : string :=
  match filterBy with
  | all => "all"
  | ultra_thin => "ultra-thin"
  | maxi => "maxi"
  | overnight => "overnight"
  end.

(** The predicate given to [products.filter]. *)
Definition matches (filterBy : FilterOption) (product : Product.t) : bool :=
  if String.eqb (filter_tag filterBy) "all" then true
  else
    existsb
      (fun feature => JS.includes (JS.toLowerCase feature) (filter_tag filterBy))
      (Product.features product)
    || JS.includes
         (JS.toLowerCase (Specifications.features (Product.specifications product)))
         (filter_tag filterBy).

Definition filteredProducts (catalog : list Product.t) (filterBy : FilterOption)
  : list Product.t :=
  List.filter (matches filterBy) catalog.

(** [new Date(n).getTime()] for an integer [n]: the time value [n], or
    [NaN] outside the range of [Date]. *)
Definition Date_getTime (n : Z) : float :=
  if Z.abs n <=? 8640000000000000 then JS.of_Z n else PrimFloat.nan.

(** The comparator given to [sort]. *)
Definition compare (sortBy : SortOption) (a b : Product.t) : float :=
  match sortBy with
  | price_low => (Product.price a - Product.price b)%float
  | price_high => (Product.price b - Product.price a)%float
  | newest => (Date_getTime (Product.id b) - Date_getTime (Product.id a))%float
  | featured => 0%float
  end.

(** [Array.prototype.sort] is a stable sort by the comparator, a result
    of [NaN] counting as zero.  When the comparator orders the elements
    by a key, every stable sort gives the same array, and stable
    insertion sort computes it: an element moves behind another one only
    when the comparator is positive on them.  (On a comparator that is no
    such order, as with a price that is NaN among prices that are not,
    the standard leaves the result to the engine; the definition below
    is then one of the permitted results.) *)
Fixpoint insert_sorted {A : Type} (comparefn : A -> A -> float) (x : A)
  (sorted : list A) : list A :=
  match sorted with
  | [] => [x]
  | y :: rest =>
      if (0 <? comparefn x y)%float
      then y :: insert_sorted comparefn x rest
      else x :: sorted
  end.

Fixpoint sort {A : Type} (comparefn : A -> A -> float) (l : list A) : list A :=
  match l with
  | [] => []
  | x :: rest => insert_sorted comparefn x (sort comparefn rest)
  end.

(** The comparator lets [a] stay before [b]: it is not positive on them. *)
Definition in_order {A : Type} (comparefn : A -> A -> float) (a b : A) : Prop :=
  (0 <? comparefn a b)%float = false.

Definition sortedProducts (catalog : list Product.t) (filterBy : FilterOption)
  (sortBy : SortOption) : list Product.t :=
  sort (compare sortBy) (filteredProducts catalog filterBy).

End Shop.

(** ** The product carousel ([ProductCarousel]) *)

Module Carousel.

(** The state of the component: the quantity typed for each product
    identifier, and the product whose image is flying to the cart. *)
Record State : Type := {
  quantities : gmap Z Z;
  animatingProduct : option Z;
}.

(** [Object.fromEntries]: of two entries with one key the later wins. *)
Definition fromEntries (entries : list (Z * Z)) : gmap Z Z :=
  fold_left (fun object entry => <[fst entry := snd entry]> object) entries ∅.

Definition initial (catalog : list Product.t) : State :=
  {| quantities := fromEntries (map (fun p => (Product.id p, 1)) catalog);
     animatingProduct := None |}.

Definition handleQuantityChange (productId : Z) (value : string) (st : State)
  : State :=
  let quantity := JS.or_else (JS.parseInt value) 1 in
  {| quantities :=
       <[productId := JS.Math_max 1 (JS.Math_min 99 quantity)]> (quantities st);
     animatingProduct := animatingProduct st |}.

(** [{ ...product, quantity }] as the cart sees it: the fields of a cart
    item.  The identifier is a number at run time and stays one in the
    cart, where it is only compared with [===]; it is written in decimal
    here, which compares the same among numbers.  (A cart that holds the
    number 1 and the string "1" side by side, which [===] tells apart, is
    so not among the carts of the model.) *)
Definition cart_item (product : Product.t) (quantity' : Z) : Cart.CartItem :=
  {| Cart.id := JS.ToString (Product.id product);
     Cart.name := Product.name product;
     Cart.description := Product.description product;
     Cart.image := Product.image product;
     Cart.quantity := quantity';
     Cart.price := Some (Product.price product) |}.

(** [handleAddToCart]: the component's state and what the call of
    [addItem] gives, followed by the component's own toast.  It is called
    with products whose quantity is in the state; [None] stands for a
    call with another product, whose quantity would be [undefined]. *)
Definition handleAddToCart (product : Product.t) (st : State) (cart : Cart.Store)
  : option (State * Cart.Handled) :=
  match quantities st !! Product.id product with
  | Some quantity' =>
      let added := Cart.addItem (cart_item product quantity') cart in
      Some ({| quantities := quantities st;
               animatingProduct := Some (Product.id product) |},
            {| Cart.after := Cart.after added;
               Cart.itemsSet := Cart.itemsSet added;
               Cart.notices :=
                 Cart.notices added ++
                 [Cart.toast_success "Added to cart successfully!"] |})
  | None => None
  end.

(** The callback [handleAddToCart] hands to [setTimeout]. *)
Definition animationTimeout (st : State) : State :=
  {| quantities := quantities st; animatingProduct := None |}.

(** The quantities typed one after the other, each for a product. *)
Definition typed (changes : list (Z * string)) (st : State) : State :=
  fold_left (fun st change => handleQuantityChange (fst change) (snd change) st)
    changes st.

End Carousel.

(** ** Invariants of the cart *)

Module Invariant.

(** No line is above the cap. *)
Definition capped (items : list Cart.CartItem) : Prop :=
  Forall (fun item => Cart.quantity item <= 99) items.

(** Every line holds from 1 to 99 units. *)
Definition in_range (items : list Cart.CartItem) : Prop :=
  Forall (fun item => 1 <= Cart.quantity item <= 99) items.

(** An action that does not add less than one unit. *)
Definition adds_units (a : Cart.Action) : Prop :=
  match a with
  | Cart.AddItem newItem => 1 <= Cart.quantity newItem
  | _ => True
  end.

(** No two lines share an id. *)
Definition distinct_ids (items : list Cart.CartItem) : Prop :=
  List.NoDup (map Cart.id items).

(** The storage entry is the envelope of the items, expiring seven
    calendar days after the time [written]. *)
Definition persisted (browser : Cart.Browser) (written : Z) (s : Cart.Store)
  : Prop :=
  Cart.localStorage s !! Cart.CART_STORAGE_KEY
  = Some (Cart.JSON_stringify browser
            {| Cart.Envelope.items := Cart.items s;
               Cart.Envelope.expiryDate :=
                 Cart.Date_plus_days browser written Cart.CART_EXPIRY_DAYS |}).

End Invariant.

(** ** Statements of the specification, in its own words *)

Module Spec.

(** "price is a present, finite, non-negative number". *)
Definition valid_price (x : JS.number) : bool :=
  match x with
  | None => false
  | Some f => PrimFloat.is_finite f && (0 <=? f)%float
  end.

(** "quantity clamped to [1, 99]". *)
Definition clamp_quantity (q : Z) : Z := Z.max 1 (Z.min 99 q).

(** "subtotal = sum of price x quantity, excluding NaN-producing items":
    the product of the price and the quantity of each line that has a
    price, left out when it is NaN; the products are summed from the
    left. *)
Definition line_total (item : Cart.CartItem) : option float :=
  match Cart.price item with
  | Some unit_price =>
      let t := PrimFloat.mul unit_price (JS.of_Z (Cart.quantity item)) in
      if PrimFloat.is_nan t then None else Some t
  | None => None
  end.

Fixpoint line_totals (items : list Cart.CartItem) : list float :=
  match items with
  | [] => []
  | item :: rest =>
      match line_total item with
      | Some t => t :: line_totals rest
      | None => line_totals rest
      end
  end.

Definition subtotal_of (items : list Cart.CartItem) : float :=
  fold_left PrimFloat.add (line_totals items) 0%float.

(** "total = subtotal x (1 - discount/100) if promo active, else subtotal". *)
Definition total_of (sub : float) (promo : option Cart.PromoCode) : float :=
  match promo with
  | Some p => (sub * (1 - JS.of_Z (Cart.discount p) / 100))%float
  | None => sub
  end.

(** "totalItemCount = sum of quantity". *)
Definition count_of (items : list Cart.CartItem) : Z :=
  fold_right Z.add 0 (map Cart.quantity items).








End Spec.

(** ** Sample data *)

Module Sample.

Definition pads (quantity' : Z) (price' : JS.number) : Cart.CartItem :=
  {| Cart.id := "1"; Cart.name := "Ultra-Thin 290mm";
     Cart.description := "Perfect for light to medium flow days.";
     Cart.image := "/lovable-uploads/0df96e81-8434-4436-b873-45aa9c6814cf.png";
     Cart.quantity := quantity'; Cart.price := price' |}.

Definition empty_store : Cart.Store :=
  {| Cart.items := []; Cart.activePromoCode := None;
     Cart.isCartAnimating := false; Cart.localStorage := ∅ |}.

Definition one_line_store : Cart.Store :=
  {| Cart.items := [pads 2 (Some 6.99%float)]; Cart.activePromoCode := None;
     Cart.isCartAnimating := false; Cart.localStorage := ∅ |}.

Definition saved_envelope : Cart.Envelope.t :=
  {| Cart.Envelope.items := [pads 2 (Some 6.99%float)];
     Cart.Envelope.expiryDate := 1000 |}.

(** A second line. *)
Definition maxi_pads (quantity' : Z) : Cart.CartItem :=
  {| Cart.id := "2"; Cart.name := "Maxi Pads 350mm";
     Cart.description := "Ideal for medium to heavy flow days.";
     Cart.image := "/lovable-uploads/5064d341-66ba-411d-8a91-8781d383f256.png";
     Cart.quantity := quantity'; Cart.price := Some 7.99%float |}.

(** A stand-in for the browser, whose JSON knows three texts: the one of
    [saved_envelope], one of an envelope without items, and [null]. *)
Definition stringify (e : Cart.Envelope.t) : string := "{envelope}".

Definition pads_value : Json.value :=
  Json.object
    [("id", Json.text "1"); ("name", Json.text "Ultra-Thin 290mm");
     ("quantity", Json.number 2%float); ("price", Json.number 6.99%float)].

Definition parse (text : string) : JS.outcome Json.value :=
  if String.eqb text "{envelope}" then
    JS.Return
      (Json.object
         [("items", Json.array [pads_value]);
          ("expiryDate", Json.number 1000%float)])
  else if String.eqb text "{expiryDate}" then
    JS.Return (Json.object [("expiryDate", Json.number 1000%float)])
  else if String.eqb text "null" then JS.Return Json.null
  else JS.Throw JS.SyntaxError.

Definition items_of (elements : list Json.value) : option (list Cart.CartItem) :=
  match elements with
  | [] => Some []
  | [Json.object (("id", Json.text "1") :: _)] =>
      Some [pads 2 (Some 6.99%float)]
  | _ => None
  end.

Definition browser : Cart.Browser :=
  {| Cart.JSON_stringify := stringify;
     Cart.JSON_parse := parse;
     Cart.ToNumber_object := fun _ => JS.Return PrimFloat.nan;
     Cart.Date_plus_days := fun t n => t + n * Cart.MS_PER_DAY;
     Cart.items_of := items_of |}.

(** The store of a provider mounted at time 0 in a browser without a saved
    cart. *)
Definition mounted_store : Cart.Store :=
  Cart.persistEffect browser true 0 empty_store.

(** A store reached from it, with two lines and a promo code. *)
Definition busy_store : Cart.Store :=
  Cart.run browser
    [(1, Cart.AddItem (pads 2 (Some 6.99%float)));
     (2, Cart.AddItem (maxi_pads 1));
     (3, Cart.ApplyPromoCode "save20")]
    mounted_store.

(** A product given away, as the carousel could be handed one. *)
Definition free_sample : Product.t :=
  {| Product.id := 1; Product.name := "Sample"; Product.description := "";
     Product.image := ""; Product.price := 0%float; Product.features := [];
     Product.specifications :=
       {| Specifications.length := ""; Specifications.absorption := "";
          Specifications.quantity := ""; Specifications.material := "";
          Specifications.features := "" |} |}.

(** A storage that holds the text of [saved_envelope]. *)
Definition saved_storage : gmap string string :=
  {[ Cart.CART_STORAGE_KEY := "{envelope}" ]}.

(** A storage that holds a text without items, not yet expired at 999. *)
Definition damaged_storage : gmap string string :=
  {[ Cart.CART_STORAGE_KEY := "{expiryDate}" ]}.

(** A product of the given identifier and price. *)
Definition product (id' : Z) (price' : float) : Product.t :=
  {| Product.id := id'; Product.name := "Sample"; Product.description := "";
     Product.image := ""; Product.price := price'; Product.features := [];
     Product.specifications :=
       {| Specifications.length := ""; Specifications.absorption := "";
          Specifications.quantity := ""; Specifications.material := "";
          Specifications.features := "" |} |}.



End Sample.

(** ** The model on a few inputs *)

Example toLowerCase_ex : JS.toLowerCase "WELCOME10" = "welcome10".
Proof. reflexivity. Qed.

Example includes_ex :
  JS.includes (JS.toLowerCase "Ultra-thin design") "ultra-thin" = true.
Proof. reflexivity. Qed.

Example parseInt_ex :
  JS.parseInt (String "194" (String "160" " -12px")) = Some (-12) /\
  JS.parseInt "0x1F" = Some 31 /\
  JS.parseInt "px" = None.
Proof. repeat split. Qed.

Example of_Z_ex :
  JS.of_Z 99 = 99%float /\
  JS.of_Z 9007199254740993 = 9007199254740992%float.
Proof. repeat split. Qed.

Example mount_ex :
  Cart.JSON_stringify Sample.browser Sample.saved_envelope = "{envelope}" /\
  Cart.initialItems Sample.browser true false Sample.saved_storage 999
  = JS.Return (Some (Json.array [Sample.pads_value])) /\
  Cart.initialItems Sample.browser true false Sample.saved_storage 1000
  = JS.Return (Some (Json.array [])) /\
  Cart.initialItems Sample.browser true false
    {[ Cart.CART_STORAGE_KEY := "null" ]} 0
  = JS.Return (Some (Json.array [])) /\
  Cart.initialItems Sample.browser true false
    {[ Cart.CART_STORAGE_KEY := "{" ]} 0
  = JS.Return (Some (Json.array [])) /\
  Cart.initialItems Sample.browser false false Sample.saved_storage 999
  = JS.Return (Some (Json.array [])).
Proof. repeat split. Qed.

Example price_ex : JS.mul (Some 6.99%float) 5 = 34.95%float.
Proof. reflexivity. Qed.

Example bind_ex :
  (x ← JS.Return 1; JS.try_catch (JS.Throw JS.TypeError) (fun _ => mret (x + 1)))
  = JS.Return 2.
Proof. reflexivity. Qed.

Example shop_ex :
  map Product.id (Shop.sortedProducts products Shop.overnight Shop.price_high)
  = [3; 2].
Proof. reflexivity. Qed.

Example shop_newest_ex :
  map Product.id (Shop.sortedProducts products Shop.all Shop.newest) = [3; 2; 1].
Proof. reflexivity. Qed.

Example promo_ex :
  let s :=
    {| Cart.items := [Sample.pads 1 (Some 100%float)];
       Cart.activePromoCode := None; Cart.isCartAnimating := false;
       Cart.localStorage := ∅ |} in
  let s' := Cart.after (Cart.applyPromoCode "SAVE20" s) in
  Cart.total s = 100%float /\
  Cart.total s' = 80%float /\
  Cart.total (Cart.after (Cart.removePromoCode s')) = 100%float.
Proof. repeat split. Qed.

(** ** Facts about doubles *)

Module FloatFacts.

Lemma SFcompare_refl_finite s m e :
  SFcompare (S754_finite s m e) (S754_finite s m e) = Some Eq.
Proof.
  simpl. destruct s; rewrite (Z.compare_refl e), (Pos.compare_cont_refl m Eq); reflexivity.
Qed.

Lemma is_nan_spec f : PrimFloat.is_nan f = true <-> Prim2SF f = S754_nan.
Proof.
  unfold PrimFloat.is_nan. rewrite FloatAxioms.eqb_spec. unfold SFeqb.
  destruct (Prim2SF f) as [s|s| |s m e].
  - simpl. split; discriminate.
  - destruct s; simpl; split; discriminate.
  - simpl. split; reflexivity.
  - rewrite SFcompare_refl_finite. simpl. split; discriminate.
Qed.

Lemma is_zero_spec f :
  PrimFloat.is_zero f = true <-> exists s, Prim2SF f = S754_zero s.
Proof.
  unfold PrimFloat.is_zero. rewrite FloatAxioms.eqb_spec. unfold SFeqb.
  replace (Prim2SF zero) with (S754_zero false) by reflexivity.
  destruct (Prim2SF f) as [s|s| |s m e]; simpl.
  - split; eauto.
  - destruct s; split; try discriminate; intros [? ?]; discriminate.
  - split; try discriminate; intros [? ?]; discriminate.
  - destruct s; split; try discriminate; intros [? ?]; discriminate.
Qed.

(** A number that compares below or above zero is neither a zero nor
    [NaN]. *)
Lemma nonzero_sign f :
  (f <? 0)%float = true \/ (0 <? f)%float = true ->
  PrimFloat.is_zero f = false /\ PrimFloat.is_nan f = false.
Proof.
  intros H.
  assert (Hz : forall s, Prim2SF f <> S754_zero s).
  { intros s E. rewrite !FloatAxioms.ltb_spec, E in H.
    destruct H as [H|H]; vm_compute in H; discriminate. }
  assert (Hn : Prim2SF f <> S754_nan).
  { intros E. rewrite !FloatAxioms.ltb_spec, E in H.
    destruct H as [H|H]; vm_compute in H; discriminate. }
  split.
  - destruct (PrimFloat.is_zero f) eqn:E; [|reflexivity].
    apply is_zero_spec in E. destruct E as [s E]. destruct (Hz s E).
  - destruct (PrimFloat.is_nan f) eqn:E; [|reflexivity].
    apply is_nan_spec in E. destruct (Hn E).
Qed.


(** Multiplying [NaN] gives [NaN]. *)
Lemma mul_nan_l (a b : float) :
  PrimFloat.is_nan a = true -> PrimFloat.is_nan (a * b) = true.
Proof.
  intros Ha. apply is_nan_spec in Ha. apply is_nan_spec.
  rewrite FloatAxioms.mul_spec, Ha. reflexivity.
Qed.

End FloatFacts.

(** ** The order of doubles *)

Module DoubleFacts.
Import Double.

Lemma digits_bounds (m : positive) :
  2 ^ (Zpos (digits2_pos m) - 1) <= Zpos m < 2 ^ Zpos (digits2_pos m).
Proof.
  induction m as [p IH|p IH|]; cbn [digits2_pos].
  - rewrite Pos2Z.inj_succ.
    replace (Z.succ (Zpos (digits2_pos p)) - 1) with (Z.succ (Zpos (digits2_pos p) - 1)) by lia.
    rewrite !Z.pow_succ_r by lia. lia.
  - rewrite Pos2Z.inj_succ.
    replace (Z.succ (Zpos (digits2_pos p)) - 1) with (Z.succ (Zpos (digits2_pos p) - 1)) by lia.
    rewrite !Z.pow_succ_r by lia. lia.
  - simpl. lia.
Qed.

Lemma pow2_pos (n : Z) : 0 <= n -> 0 < 2 ^ n.
Proof. intros. apply Z.pow_pos_nonneg; lia. Qed.

Lemma valid_finite (s : bool) (m : positive) (e : Z) :
  valid_binary (S754_finite s m e) = true ->
  -1074 <= e <= 971 /\
  Zpos (digits2_pos m) <= 53 /\
  (-1074 < e -> Zpos (digits2_pos m) = 53).
Proof.
  unfold SpecFloat.valid_binary, bounded, canonical_mantissa, fexp, emin.
  change prec with 53. change emax with 1024.
  intros H. apply andb_true_iff in H. destruct H as [H1 H2].
  apply Z.eqb_eq in H1. apply Z.leb_le in H2. lia.
Qed.

Lemma valid_mantissa (s : bool) (m : positive) (e : Z) :
  valid_binary (S754_finite s m e) = true ->
  -1074 <= e <= 971 /\
  Zpos m < 2 ^ 53 /\
  (-1074 < e -> 2 ^ 52 <= Zpos m).
Proof.
  intros H. destruct (valid_finite s m e H) as (He & Hd & Hn).
  pose proof (digits_bounds m) as [Hl Hu].
  split; [exact He|]. split.
  - apply (Z.lt_le_trans _ _ _ Hu). apply Z.pow_le_mono_r; lia.
  - intros Hlt. rewrite (Hn Hlt) in Hl. exact Hl.
Qed.

Lemma scaled_lt (m1 m2 : positive) (e1 e2 : Z) :
  Zpos m1 < 2 ^ 53 -> 2 ^ 52 <= Zpos m2 -> -1074 <= e1 -> e1 < e2 ->
  Zpos m1 * 2 ^ (e1 + 1074) < Zpos m2 * 2 ^ (e2 + 1074).
Proof.
  intros H1 H2 He Hlt.
  assert (Hp : 0 < 2 ^ (e1 + 1074)) by (apply pow2_pos; lia).
  assert (Hq : 2 * 2 ^ (e1 + 1074) <= 2 ^ (e2 + 1074)).
  { rewrite <- Z.pow_succ_r by lia. apply Z.pow_le_mono_r; lia. }
  change (2 ^ 53) with 9007199254740992 in H1.
  change (2 ^ 52) with 4503599627370496 in H2.
  nia.
Qed.

Lemma finite_below_infinity (m : positive) (e : Z) :
  Zpos m < 2 ^ 53 -> e <= 971 -> -1074 <= e ->
  Zpos m * 2 ^ (e + 1074) < 2 ^ 2200.
Proof.
  intros H1 He He'.
  assert (Hp : 0 < 2 ^ (e + 1074)) by (apply pow2_pos; lia).
  apply (Z.lt_le_trans _ (2 ^ 53 * 2 ^ (e + 1074))).
  - apply Z.mul_lt_mono_pos_r; assumption.
  - rewrite <- Z.pow_add_r by lia. apply Z.pow_le_mono_r; lia.
Qed.

Lemma finite_rank_pos (m : positive) (e : Z) :
  -1074 <= e -> 0 < Zpos m * 2 ^ (e + 1074).
Proof.
  intros He. apply Z.mul_pos_pos; [lia|]. apply pow2_pos. lia.
Qed.

Lemma compare_scaled (m1 m2 : positive) (e1 e2 : Z) :
  valid_binary (S754_finite false m1 e1) = true ->
  valid_binary (S754_finite false m2 e2) = true ->
  (Zpos m1 * 2 ^ (e1 + 1074) ?= Zpos m2 * 2 ^ (e2 + 1074))
  = match e1 ?= e2 with
    | Lt => Lt
    | Gt => Gt
    | Eq => Pos.compare_cont Eq m1 m2
    end.
Proof.
  intros V1 V2.
  destruct (valid_mantissa _ _ _ V1) as (He1 & Hm1 & Hn1).
  destruct (valid_mantissa _ _ _ V2) as (He2 & Hm2 & Hn2).
  destruct (Z.compare_spec e1 e2) as [->|Hlt|Hgt].
  - change (Pos.compare_cont Eq m1 m2) with (Zpos m1 ?= Zpos m2).
    assert (Hp : 0 < 2 ^ (e2 + 1074)) by (apply pow2_pos; lia).
    destruct (Z.compare_spec (Zpos m1) (Zpos m2)) as [E|E|E].
    + rewrite E. apply Z.compare_refl.
    + apply Z.compare_lt_iff. nia.
    + apply Z.compare_gt_iff. nia.
  - apply Z.compare_lt_iff. apply scaled_lt; lia.
  - apply Z.compare_gt_iff. apply scaled_lt; lia.
Qed.

(** On numbers the comparison of doubles is the comparison of their ranks. *)
Lemma SFcompare_rank (x y : spec_float) :
  valid_binary x = true -> valid_binary y = true ->
  is_number x = true -> is_number y = true ->
  SFcompare x y = Some (rank x ?= rank y).
Proof.
  intros Vx Vy Nx Ny.
  destruct x as [sx|sx| |sx mx ex]; try discriminate Nx;
  destruct y as [sy|sy| |sy my ey]; try discriminate Ny;
  cbn [SFcompare rank].
  - reflexivity.
  - destruct sy; simpl; reflexivity.
  - destruct (valid_mantissa _ _ _ Vy) as (He & _ & _).
    pose proof (finite_rank_pos my ey ltac:(lia)).
    f_equal. symmetry. destruct sy; cbn [cond_Zopp].
    + apply Z.compare_gt_iff. lia.
    + apply Z.compare_lt_iff. lia.
  - destruct sx; simpl; reflexivity.
  - destruct sx, sy; simpl; reflexivity.
  - destruct (valid_mantissa _ _ _ Vy) as (He & Hm & _).
    pose proof (finite_below_infinity my ey Hm ltac:(lia) ltac:(lia)).
    pose proof (finite_rank_pos my ey ltac:(lia)).
    f_equal. symmetry. destruct sx, sy; cbn [cond_Zopp];
      first [apply Z.compare_lt_iff; lia | apply Z.compare_gt_iff; lia].
  - destruct (valid_mantissa _ _ _ Vx) as (He & _ & _).
    pose proof (finite_rank_pos mx ex ltac:(lia)).
    f_equal. symmetry. destruct sx; cbn [cond_Zopp].
    + apply Z.compare_lt_iff. lia.
    + apply Z.compare_gt_iff. lia.
  - destruct (valid_mantissa _ _ _ Vx) as (He & Hm & _).
    pose proof (finite_below_infinity mx ex Hm ltac:(lia) ltac:(lia)).
    pose proof (finite_rank_pos mx ex ltac:(lia)).
    f_equal. symmetry. destruct sx, sy; cbn [cond_Zopp];
      first [apply Z.compare_lt_iff; lia | apply Z.compare_gt_iff; lia].
  - destruct (valid_mantissa _ _ _ Vx) as (Hex & _ & _).
    destruct (valid_mantissa _ _ _ Vy) as (Hey & _ & _).
    pose proof (finite_rank_pos mx ex ltac:(lia)).
    pose proof (finite_rank_pos my ey ltac:(lia)).
    f_equal. destruct sx, sy; cbn [cond_Zopp].
    + rewrite Z.compare_opp, (compare_scaled my mx ey ex Vy Vx).
      rewrite (Z.compare_antisym ex ey).
      destruct (ex ?= ey); simpl; try reflexivity.
      change (Pos.compare_cont Eq my mx) with (Pos.compare my mx).
      change (Pos.compare_cont Eq mx my) with (Pos.compare mx my).
      rewrite (Pos.compare_antisym mx my). reflexivity.
    + symmetry. apply Z.compare_lt_iff. lia.
    + symmetry. apply Z.compare_gt_iff. lia.
    + symmetry. apply compare_scaled; assumption.
Qed.

(** *** Rounding never loses the sign *)

Lemma shr_1_half (mrs : shr_record) :
  0 <= shr_m mrs ->
  shr_m (shr_1 mrs) = shr_m mrs / 2.
Proof.
  destruct mrs as [m r s]. cbn [shr_m]. intros Hm.
  destruct m as [|p|p]; [reflexivity| |lia].
  destruct p; cbn [shr_1 shr_m]; rewrite <- Z.div2_div; reflexivity.
Qed.

Lemma pow2_xO (p : positive) : 2 ^ Zpos p~0 = 2 ^ Zpos p * 2 ^ Zpos p.
Proof.
  replace (Zpos p~0) with (Zpos p + Zpos p) by lia.
  apply Z.pow_add_r; lia.
Qed.

Lemma pow2_xI (p : positive) : 2 ^ Zpos p~1 = 2 * (2 ^ Zpos p * 2 ^ Zpos p).
Proof.
  replace (Zpos p~1) with (Z.succ (Zpos p + Zpos p)) by lia.
  rewrite Z.pow_succ_r, Z.pow_add_r by lia. reflexivity.
Qed.

Lemma iter_shr_1 (p : positive) (mrs : shr_record) :
  0 <= shr_m mrs ->
  shr_m (SpecFloat.iter_pos shr_1 p mrs) = shr_m mrs / 2 ^ Zpos p.
Proof.
  revert mrs. induction p as [p IH|p IH|]; intros mrs Hm;
    cbn [SpecFloat.iter_pos].
  - assert (H1 : 0 <= shr_m (shr_1 mrs))
      by (rewrite shr_1_half by exact Hm; apply Z.div_pos; lia).
    assert (Hp : 0 < 2 ^ Zpos p) by (apply pow2_pos; lia).
    assert (H2 : 0 <= shr_m (SpecFloat.iter_pos shr_1 p (shr_1 mrs)))
      by (rewrite IH by exact H1; apply Z.div_pos; lia).
    rewrite IH by exact H2. rewrite IH by exact H1.
    rewrite shr_1_half by exact Hm.
    rewrite !Z.div_div by lia. rewrite pow2_xI. reflexivity || (f_equal; lia).
  - assert (Hp : 0 < 2 ^ Zpos p) by (apply pow2_pos; lia).
    assert (H2 : 0 <= shr_m (SpecFloat.iter_pos shr_1 p mrs))
      by (rewrite IH by exact Hm; apply Z.div_pos; lia).
    rewrite IH by exact H2. rewrite IH by exact Hm.
    rewrite !Z.div_div by lia. rewrite pow2_xO. reflexivity.
  - rewrite shr_1_half by exact Hm. reflexivity.
Qed.

Lemma shr_m_of_loc (m : Z) (l : location) :
  shr_m (shr_record_of_loc m l) = m.
Proof. destruct l as [|[ | | ]]; reflexivity. Qed.

Lemma shr_fexp_positive (m : positive) (e : Z) (l : location) :
  -1074 <= e ->
  0 < shr_m (fst (shr_fexp prec emax (Zpos m) e l)) /\
  -1074 <= snd (shr_fexp prec emax (Zpos m) e l).
Proof.
  intros He. unfold shr_fexp, fexp, emin.
  change prec with 53. change emax with 1024. cbn [Zdigits2].
  pose proof (digits_bounds m) as [Hl _].
  set (d := Zpos (digits2_pos m)) in *.
  destruct (Z.max (d + e - 53) (3 - 1024 - 53) - e) as [|q|q] eqn:Hn;
    cbn [shr fst snd].
  - rewrite shr_m_of_loc. lia.
  - rewrite iter_shr_1 by (rewrite shr_m_of_loc; lia).
    rewrite shr_m_of_loc. split; [|lia].
    assert (Hq : Zpos q = d - 53) by lia.
    assert (Hp : 0 < 2 ^ Zpos q) by (apply pow2_pos; lia).
    apply (Z.lt_le_trans _ 1); [lia|].
    apply Z.div_le_lower_bound; [exact Hp|].
    apply (Z.le_trans _ (2 ^ (d - 1))); [|exact Hl].
    rewrite Z.mul_1_r. apply Z.pow_le_mono_r; lia.
  - rewrite shr_m_of_loc. lia.
Qed.

Lemma round_nearest_even_positive (m : Z) (l : location) :
  0 < m -> 0 < round_nearest_even m l.
Proof.
  intros Hm. destruct l as [|[ | | ]]; cbn [round_nearest_even]; try lia.
  destruct (Z.even m); lia.
Qed.

Lemma binary_round_aux_signed (s : bool) (m : positive) (e : Z) (l : location) :
  -1074 <= e -> signed s (binary_round_aux prec emax s (Zpos m) e l).
Proof.
  intros He. unfold binary_round_aux.
  destruct (shr_fexp_positive m e l He) as [H1 H2].
  destruct (shr_fexp prec emax (Zpos m) e l) as [mrs' e'].
  cbn [fst snd] in H1, H2.
  pose proof (round_nearest_even_positive (shr_m mrs')
                (loc_of_shr_record mrs') H1) as H3.
  destruct (round_nearest_even (shr_m mrs') (loc_of_shr_record mrs'))
    as [|m2|m2]; try lia.
  destruct (shr_fexp_positive m2 e' loc_Exact H2) as [H4 _].
  destruct (shr_fexp prec emax (Zpos m2) e' loc_Exact) as [mrs'' e''].
  cbn [fst] in H4.
  destruct (shr_m mrs'') as [|m3|m3]; try lia.
  destruct (e'' <=? emax - prec); reflexivity.
Qed.

Lemma binary_round_signed (s : bool) (m : positive) (e : Z) :
  -1074 <= e -> signed s (binary_round prec emax s m e).
Proof.
  intros He. unfold binary_round, shl_align.
  destruct (fexp prec emax (Zpos (digits2_pos m) + e) - e) as [|q|q] eqn:Hn;
    apply binary_round_aux_signed; try exact He.
  unfold fexp, emin. change prec with 53. change emax with 1024. lia.
Qed.

Lemma iter_xO (m d : positive) :
  Zpos (Pos.iter xO m d) = Zpos m * 2 ^ Zpos d.
Proof.
  induction d as [|d IH] using Pos.peano_ind.
  - simpl. lia.
  - rewrite Pos.iter_succ, Pos2Z.inj_xO, IH, Pos2Z.inj_succ, Z.pow_succ_r by lia.
    lia.
Qed.

Lemma shl_align_scaled (m : positive) (e ez : Z) :
  -1074 <= ez -> ez <= e ->
  Zpos (fst (shl_align m e ez)) * 2 ^ (ez + 1074) = Zpos m * 2 ^ (e + 1074).
Proof.
  intros Hz Hle. unfold shl_align.
  destruct (ez - e) as [|d|d] eqn:Hd; cbn [fst].
  - replace e with ez by lia. reflexivity.
  - lia.
  - rewrite iter_xO. replace (e + 1074) with (Zpos d + (ez + 1074)) by lia.
    rewrite (Z.pow_add_r 2 (Zpos d) (ez + 1074)) by lia. ring.
Qed.

Lemma SFltb_zero_signed (s : bool) (x : spec_float) :
  signed s x -> SFltb (S754_zero false) x = negb s.
Proof.
  destruct x as [| | |s' m e]; cbn [signed]; try contradiction;
    intros ->; destruct s; reflexivity.
Qed.

(** The sign of a difference of numbers is the order of their ranks. *)
Lemma SFsub_rank (x y : spec_float) :
  valid_binary x = true -> valid_binary y = true ->
  is_number x = true -> is_number y = true ->
  SFltb (S754_zero false) (SF64sub x y) = (rank y <? rank x).
Proof.
  intros Vx Vy Nx Ny.
  destruct x as [sx|sx| |sx mx ex]; try discriminate Nx;
  destruct y as [sy|sy| |sy my ey]; try discriminate Ny;
  unfold SF64sub; cbn [SFsub rank].
  - destruct sx, sy; reflexivity.
  - destruct sy; reflexivity.
  - destruct (valid_mantissa _ _ _ Vy) as (He & _ & _).
    pose proof (finite_rank_pos my ey ltac:(lia)).
    destruct sy; cbn [cond_Zopp negb SFltb SFcompare]; symmetry.
    + apply Z.ltb_lt. lia.
    + apply Z.ltb_ge. lia.
  - destruct sx; reflexivity.
  - destruct sx, sy; reflexivity.
  - destruct (valid_mantissa _ _ _ Vy) as (He & Hm & _).
    pose proof (finite_below_infinity my ey Hm ltac:(lia) ltac:(lia)).
    pose proof (finite_rank_pos my ey ltac:(lia)).
    destruct sx, sy; cbn [cond_Zopp SFltb SFcompare]; symmetry;
      first [apply Z.ltb_lt; lia | apply Z.ltb_ge; lia].
  - destruct (valid_mantissa _ _ _ Vx) as (He & _ & _).
    pose proof (finite_rank_pos mx ex ltac:(lia)).
    destruct sx; cbn [cond_Zopp SFltb SFcompare]; symmetry.
    + apply Z.ltb_ge. lia.
    + apply Z.ltb_lt. lia.
  - destruct (valid_mantissa _ _ _ Vx) as (He & Hm & _).
    pose proof (finite_below_infinity mx ex Hm ltac:(lia) ltac:(lia)).
    pose proof (finite_rank_pos mx ex ltac:(lia)).
    destruct sx, sy; cbn [negb cond_Zopp SFltb SFcompare]; symmetry;
      first [apply Z.ltb_lt; lia | apply Z.ltb_ge; lia].
  - destruct (valid_mantissa _ _ _ Vx) as (Hex & _ & _).
    destruct (valid_mantissa _ _ _ Vy) as (Hey & _ & _).
    set (ez := Z.min ex ey).
    assert (Hez : -1074 <= ez) by (unfold ez; lia).
    pose proof (shl_align_scaled mx ex ez Hez ltac:(unfold ez; lia)) as Hx.
    pose proof (shl_align_scaled my ey ez Hez ltac:(unfold ez; lia)) as Hy.
    assert (Hp : 0 < 2 ^ (ez + 1074)) by (apply pow2_pos; lia).
    set (X := Zpos (fst (shl_align mx ex ez))) in *.
    set (Y := Zpos (fst (shl_align my ey ez))) in *.
    assert (Hd : (cond_Zopp sx X - cond_Zopp sy Y) * 2 ^ (ez + 1074)
                 = cond_Zopp sx (Zpos mx * 2 ^ (ex + 1074))
                   - cond_Zopp sy (Zpos my * 2 ^ (ey + 1074))).
    { rewrite <- Hx, <- Hy. destruct sx, sy; cbn [cond_Zopp]; lia. }
    destruct (cond_Zopp sx X - cond_Zopp sy Y) as [|d|d] eqn:Hm;
      cbn [binary_normalize].
    + symmetry. apply Z.ltb_ge. lia.
    + rewrite (SFltb_zero_signed false) by (apply binary_round_signed; exact Hez).
      symmetry. apply Z.ltb_lt. nia.
    + rewrite (SFltb_zero_signed true) by (apply binary_round_signed; exact Hez).
      symmetry. apply Z.ltb_ge. nia.
Qed.


(** *** Doubles of the program *)

Lemma is_nan_number (f : float) :
  PrimFloat.is_nan f = false <-> is_number (Prim2SF f) = true.
Proof.
  unfold PrimFloat.is_nan. rewrite FloatAxioms.eqb_spec.
  pose proof (Prim2SF_valid f) as V.
  destruct (Prim2SF f) as [s|s| |s m e] eqn:E; cbn [is_number].
  - split; reflexivity.
  - destruct s; split; reflexivity.
  - split; discriminate.
  - unfold SFeqb. rewrite (SFcompare_rank _ _ V V eq_refl eq_refl).
    rewrite Z.compare_refl. split; reflexivity.
Qed.

Lemma ltb_rank (a b : float) :
  PrimFloat.is_nan a = false -> PrimFloat.is_nan b = false ->
  (a <? b)%float = (rank (Prim2SF a) <? rank (Prim2SF b)).
Proof.
  intros Ha Hb. apply is_nan_number in Ha, Hb.
  rewrite FloatAxioms.ltb_spec. unfold SFltb.
  rewrite (SFcompare_rank _ _ (Prim2SF_valid a) (Prim2SF_valid b) Ha Hb).
  unfold Z.ltb. reflexivity.
Qed.


(** The difference of two numbers is above zero exactly when the first is
    above the second. *)
Lemma sub_positive (a b : float) :
  PrimFloat.is_nan a = false -> PrimFloat.is_nan b = false ->
  (0 <? a - b)%float = (rank (Prim2SF b) <? rank (Prim2SF a)).
Proof.
  intros Ha Hb. apply is_nan_number in Ha, Hb.
  rewrite FloatAxioms.ltb_spec, FloatAxioms.sub_spec.
  change (Prim2SF 0) with (S754_zero false).
  apply SFsub_rank; try assumption; apply Prim2SF_valid.
Qed.

(** A comparison with NaN on either side fails. *)
Lemma ltb_nan_r (a b : float) :
  PrimFloat.is_nan b = true -> (a <? b)%float = false.
Proof.
  intros Hb. unfold PrimFloat.is_nan in Hb.
  rewrite FloatAxioms.eqb_spec in Hb. rewrite FloatAxioms.ltb_spec.
  destruct (Prim2SF b) as [s|s| |s m e] eqn:E.
  - discriminate.
  - destruct s; discriminate.
  - unfold SFltb. destruct (Prim2SF a); reflexivity.
  - pose proof (Prim2SF_valid b) as V. rewrite E in V.
    unfold SFeqb in Hb.
    rewrite (SFcompare_rank _ _ V V eq_refl eq_refl), Z.compare_refl in Hb.
    discriminate.
Qed.

(** *** Integers as doubles *)

Lemma digits_iter_xO (m d : positive) :
  digits2_pos (Pos.iter xO m d) = (digits2_pos m + d)%positive.
Proof.
  induction d as [|d IH] using Pos.peano_ind.
  - simpl. lia.
  - rewrite Pos.iter_succ. cbn [digits2_pos]. rewrite IH. lia.
Qed.

Lemma binary_round_aux_exact (s : bool) (m : positive) (e : Z) :
  Zpos (digits2_pos m) = 53 -> -1074 <= e <= 971 ->
  binary_round_aux prec emax s (Zpos m) e loc_Exact = S754_finite s m e.
Proof.
  intros Hd He.
  assert (Hs : shr_fexp prec emax (Zpos m) e loc_Exact
               = ({| shr_m := Zpos m; shr_r := false; shr_s := false |}, e)).
  { unfold shr_fexp, fexp, emin. cbn [Zdigits2]. rewrite Hd.
    change prec with 53. change emax with 1024.
    replace (Z.max (53 + e - 53) (3 - 1024 - 53) - e) with 0 by lia.
    reflexivity. }
  unfold binary_round_aux. rewrite Hs. cbn [shr_m loc_of_shr_record
    round_nearest_even]. rewrite Hs. cbn [shr_m].
  change (emax - prec) with 971.
  destruct (Z.leb_spec e 971); [reflexivity|lia].
Qed.

Lemma binary_round_integer (s : bool) (m : positive) :
  Zpos m < 2 ^ 53 ->
  exists m' e',
    binary_round prec emax s m 0 = S754_finite s m' e' /\
    valid_binary (S754_finite s m' e') = true /\
    Zpos m' * 2 ^ (e' + 1074) = Zpos m * 2 ^ 1074.
Proof.
  intros Hm. pose proof (digits_bounds m) as [Hl _].
  set (d := Zpos (digits2_pos m)) in *.
  assert (Hd : 1 <= d <= 53).
  { split; [unfold d; lia|].
    destruct (Z.le_gt_cases d 53) as [H|H]; [exact H|].
    exfalso. assert (2 ^ 53 <= 2 ^ (d - 1)) by (apply Z.pow_le_mono_r; lia).
    lia. }
  unfold binary_round. fold d.
  assert (Hf : fexp prec emax (d + 0) = d - 53).
  { unfold fexp, emin. change prec with 53. change emax with 1024. lia. }
  rewrite Hf.
  pose proof (shl_align_scaled m 0 (d - 53) ltac:(lia) ltac:(lia)) as Hv.
  assert (He : snd (shl_align m 0 (d - 53)) = d - 53
               /\ Zpos (digits2_pos (fst (shl_align m 0 (d - 53)))) = 53).
  { unfold shl_align. destruct (d - 53 - 0) as [|q|q] eqn:Hq; cbn [fst snd].
    - fold d. lia.
    - lia.
    - rewrite digits_iter_xO, Pos2Z.inj_add. fold d. lia. }
  destruct (shl_align m 0 (d - 53)) as [mz ez]. cbn [fst snd] in *.
  destruct He as [-> Hdz].
  exists mz, (d - 53). split; [apply binary_round_aux_exact; lia|].
  split; [|exact Hv].
  unfold SpecFloat.valid_binary, bounded, canonical_mantissa, fexp, emin.
  rewrite Hdz. change prec with 53. change emax with 1024.
  apply andb_true_iff. split; [apply Z.eqb_eq|apply Z.leb_le]; lia.
Qed.

(** An integer below 2^53 in magnitude is a double of its own value. *)
Lemma of_Z_rank (z : Z) :
  Z.abs z < 2 ^ 53 ->
  PrimFloat.is_nan (JS.of_Z z) = false /\
  rank (Prim2SF (JS.of_Z z)) = z * 2 ^ 1074.
Proof.
  intros Hz. unfold JS.of_Z.
  destruct z as [|m|m]; cbn [binary_normalize].
  - split; reflexivity.
  - destruct (binary_round_integer false m ltac:(lia)) as (m' & e' & -> & V & Hr).
    rewrite is_nan_number, (Prim2SF_SF2Prim _ V). split; [reflexivity|].
    exact Hr.
  - destruct (binary_round_integer true m ltac:(lia)) as (m' & e' & -> & V & Hr).
    rewrite is_nan_number, (Prim2SF_SF2Prim _ V). split; [reflexivity|].
    cbn [rank cond_Zopp]. rewrite Hr. lia.
Qed.

(** Integers below 2^53 in magnitude compare as doubles as they do as
    integers, and so does the sign of their difference. *)
Lemma of_Z_ltb (a b : Z) :
  Z.abs a < 2 ^ 53 -> Z.abs b < 2 ^ 53 ->
  (JS.of_Z a <? JS.of_Z b)%float = (a <? b) /\
  (0 <? JS.of_Z a - JS.of_Z b)%float = (b <? a).
Proof.
  intros Ha Hb.
  destruct (of_Z_rank a Ha) as [Na Ra]. destruct (of_Z_rank b Hb) as [Nb Rb].
  assert (Hp : 0 < 2 ^ 1074) by (apply pow2_pos; lia).
  rewrite (ltb_rank _ _ Na Nb), (sub_positive _ _ Na Nb), Ra, Rb.
  split.
  - destruct (Z.ltb_spec a b), (Z.ltb_spec (a * 2 ^ 1074) (b * 2 ^ 1074));
      try reflexivity; nia.
  - destruct (Z.ltb_spec b a), (Z.ltb_spec (b * 2 ^ 1074) (a * 2 ^ 1074));
      try reflexivity; nia.
Qed.

End DoubleFacts.

(** ** The cart store: theorems *)

Module CartTheory.
Import Cart.

Create HintDb cart.

#[local] Hint Unfold rejects addItem updateQuantity clearCart applyPromoCode
  removePromoCode removeItem animationTimeout dispatch commit handle
  persistEffect setItems setActivePromoCode setIsCartAnimating
  setLocalStorage : cart.

Ltac unfold_cart := autounfold with cart in *; simpl in *.

Lemma find_id_none (i : string) (l : list CartItem) :
  ~ In i (map id l) ->
  find (fun item => String.eqb (id item) i) l = None.
Proof.
  induction l as [|x l IH]; simpl; intros Hn; [reflexivity|].
  destruct (String.eqb_spec (id x) i) as [E|E].
  - destruct Hn. left. exact E.
  - apply IH. intros Hin. apply Hn. right. exact Hin.
Qed.

Lemma find_id_some (i : string) (l : list CartItem) :
  In i (map id l) ->
  exists x, find (fun item => String.eqb (id item) i) l = Some x.
Proof.
  induction l as [|x l IH]; simpl; intros Hin; [destruct Hin|].
  destruct (String.eqb_spec (id x) i) as [E|E]; [eauto|].
  destruct Hin as [Hin|Hin]; [congruence|auto].
Qed.

Section Facts.

Variable browser : Browser.

(** The handler itself deletes the entry, before the effect runs. *)
Lemma clearCart_handler_removes_entry (s : Store) :
  localStorage (after (clearCart s)) !! CART_STORAGE_KEY = None.
Proof. unfold_cart. apply lookup_delete_eq. Qed.

(** C1, as the code behaves: after [clearCart] and the persistence effect
    that its call of [setItems] triggers, the items are empty and no promo
    code is active, but the storage entry under the cart key is present
    again: the effect has rewritten it as an envelope without items. *)
Theorem clearCart_entry_rewritten (now : Z) (s : Store) :
  let s' := dispatch browser now ClearCart s in
  items s' = [] /\
  activePromoCode s' = None /\
  localStorage s' !! CART_STORAGE_KEY =
    Some (JSON_stringify browser
            {| Envelope.items := [];
               Envelope.expiryDate :=
                 Date_plus_days browser now CART_EXPIRY_DAYS |}).
Proof.
  unfold_cart. repeat split. apply lookup_insert_eq.
Qed.

(** C2, as amended: [addItem] rejects an item exactly when its price is
    absent, a zero or NaN.  A rejected item leaves the store as it was,
    without a call of [setItems] and so without a persistence write.  Any
    other item goes through the updater; prices below or above zero,
    infinite ones included, are among those. *)
Theorem addItem_price_guard (newItem : CartItem) (s : Store) :
  (rejects newItem = true <->
     price newItem = None \/
     exists f, price newItem = Some f /\
               ((exists sign, Prim2SF f = S754_zero sign) \/
                Prim2SF f = S754_nan)) /\
  (rejects newItem = true ->
     after (addItem newItem s) = s /\
     itemsSet (addItem newItem s) = false /\
     forall now, dispatch browser now (AddItem newItem) s = s) /\
  (rejects newItem = false ->
     items (after (addItem newItem s)) = addItem_updater newItem (items s) /\
     itemsSet (addItem newItem s) = true) /\
  (forall f, price newItem = Some f ->
     (f <? 0)%float = true \/ (0 <? f)%float = true ->
     rejects newItem = false).
Proof.
  repeat split.
  - unfold rejects, JS.logical_not, JS.isNaN, JS.ToNumber.
    destruct (price newItem) as [f|]; [|auto].
    intros H. right. exists f. split; [reflexivity|].
    apply orb_true_iff in H. destruct H as [H|H].
    + apply orb_true_iff in H. destruct H as [H|H].
      * left. apply FloatFacts.is_zero_spec. exact H.
      * right. apply FloatFacts.is_nan_spec. exact H.
    + right. apply FloatFacts.is_nan_spec. exact H.
  - unfold rejects, JS.logical_not, JS.isNaN, JS.ToNumber.
    intros [H|(f & Hf & H)]; rewrite ?H, ?Hf; [reflexivity|].
    destruct H as [H|H].
    + apply FloatFacts.is_zero_spec in H. rewrite H. reflexivity.
    + apply FloatFacts.is_nan_spec in H. rewrite H. apply orb_true_r.
  - unfold addItem. fold (rejects newItem). rewrite H. reflexivity.
  - unfold addItem. fold (rejects newItem). rewrite H. reflexivity.
  - intros now. unfold dispatch, commit, handle, addItem.
    fold (rejects newItem). rewrite H. reflexivity.
  - unfold addItem. fold (rejects newItem). rewrite H. reflexivity.
  - unfold addItem. fold (rejects newItem). rewrite H. reflexivity.
  - intros f Hf Hs. unfold rejects, JS.logical_not, JS.isNaN, JS.ToNumber.
    rewrite Hf. destruct (FloatFacts.nonzero_sign f Hs) as [Hz Hn].
    rewrite Hz, Hn. reflexivity.
Qed.

(** C3, as amended: for an item that passes the guard and whose id is not
    in the cart, [addItem] appends one line at the end, equal to the item
    but for its quantity, which is capped at 99: a requested quantity
    above 99 becomes 99, and one of at most 99 is kept as it is. *)
Theorem addItem_appends_capped (newItem : CartItem) (s : Store) :
  rejects newItem = false ->
  ~ In (id newItem) (map id (items s)) ->
  exists line,
    items (after (addItem newItem s)) = (items s ++ [line])%list /\
    line = with_quantity newItem (quantity line) /\
    (99 < quantity newItem -> quantity line = 99) /\
    (quantity newItem <= 99 -> quantity line = quantity newItem).
Proof.
  intros Hok Hfresh.
  exists (with_quantity newItem (JS.Math_min 99 (quantity newItem))).
  unfold addItem. fold (rejects newItem). rewrite Hok. simpl.
  unfold addItem_updater. rewrite (find_id_none _ _ Hfresh).
  unfold JS.Math_min. repeat split; intros; simpl; lia.
Qed.

(** [dispatch] of an accepted [addItem] on the items. *)
Lemma items_dispatch_addItem (now : Z) (c : CartItem) (s : Store) :
  rejects c = false ->
  items (dispatch browser now (AddItem c) s)
  = addItem_updater c (items s).
Proof.
  intros H. unfold dispatch, commit, handle, addItem.
  fold (rejects c). rewrite H. reflexivity.
Qed.

Lemma map_other_ids (i : string) (f : CartItem -> CartItem) (l : list CartItem) :
  ~ In i (map id l) ->
  map (fun item => if String.eqb (id item) i then f item else item) l = l.
Proof.
  induction l as [|x l IH]; simpl; intros Hn; [reflexivity|].
  destruct (String.eqb_spec (id x) i) as [E|E].
  - destruct Hn. left. exact E.
  - f_equal. apply IH. intros Hin. apply Hn. right. exact Hin.
Qed.

(** Adding to the line that is already there merges into it. *)
Lemma addItem_updater_merge (c line : CartItem) (pre : list CartItem) :
  id line = id c ->
  ~ In (id c) (map id pre) ->
  addItem_updater c (pre ++ [line])
  = (pre ++ [with_quantity line (Z.min 99 (quantity line + quantity c))])%list.
Proof.
  intros Hid Hfresh. unfold addItem_updater.
  destruct (find_id_some (id c) (pre ++ [line])) as [x Hx].
  { rewrite map_app, in_app_iff. right. left. exact Hid. }
  rewrite Hx, map_app, (map_other_ids _ _ _ Hfresh). simpl.
  rewrite Hid, String.eqb_refl. reflexivity.
Qed.

Lemma run_add_events_merge (i : string) (calls : list (Z * CartItem)) :
  Forall (fun call => id (snd call) = i /\ rejects (snd call) = false /\
                      0 < quantity (snd call)) calls ->
  forall (s : Store) (pre : list CartItem) (line : CartItem),
  items s = (pre ++ [line])%list ->
  id line = i -> ~ In i (map id pre) -> quantity line <= 99 ->
  exists line',
    items (run browser (add_events calls) s) = (pre ++ [line'])%list /\
    id line' = i /\
    quantity line' = Z.min 99 (quantity line + requested calls).
Proof.
  induction 1 as [|[now c] calls (Hid & Hok & Hpos) Hrest IH];
    intros s pre line Hs Hline Hfresh Hle; simpl in *.
  - exists line. repeat split; [exact Hs|exact Hline|lia].
  - subst i.
    destruct (IH (dispatch browser now (AddItem c) s) pre
                 (with_quantity line (Z.min 99 (quantity line + quantity c))))
      as (line' & Hitems & Hid' & Hq); simpl in *; try assumption; try lia.
    + rewrite (items_dispatch_addItem _ _ _ Hok), Hs.
      apply addItem_updater_merge; assumption.
    + exists line'. repeat split; try assumption.
      rewrite Hq. clear - Hpos Hrest Hle.
      assert (0 <= requested calls).
      { induction Hrest as [|? ? (_ & _ & ?) _ ?]; simpl; lia. }
      lia.
Qed.

(** C4, as amended: calls of [addItem] that share one id, each with a
    price that the guard of [addItem] lets through (present, not a zero,
    not NaN) and asking for a positive quantity, on a cart that does not
    hold the id, leave one line for it, at the end, whose quantity is the
    least of 99 and the sum of the requested quantities, hence at most 99.
    And adding 2 then 3 of the item "1" priced 6.99 to the empty cart
    leaves one line of quantity 5 and a subtotal of 34.95. *)
Theorem addItem_same_id_saturates :
  (forall (i : string) (calls : list (Z * CartItem)) (s : Store),
     calls <> [] ->
     Forall (fun call => id (snd call) = i /\ rejects (snd call) = false /\
                         0 < quantity (snd call)) calls ->
     ~ In i (map id (items s)) ->
     exists line,
       items (run browser (add_events calls) s)
         = (items s ++ [line])%list /\
       id line = i /\
       quantity line = Z.min 99 (requested calls) /\
       quantity line <= 99) /\
  (forall t1 t2 : Z,
     let s' :=
       run browser
         (add_events [(t1, Sample.pads 2 (Some 6.99%float));
                      (t2, Sample.pads 3 (Some 6.99%float))])
         Sample.empty_store in
     items s' = [Sample.pads 5 (Some 6.99%float)] /\
     subtotal s' = 34.95%float /\
     totalItems s' = 5).
Proof.
  split.
  - intros i calls s Hne Hall Hfresh.
    destruct calls as [|[now c] calls]; [congruence|].
    inversion Hall as [|? ? (Hid & Hok & Hpos) Hrest]; subst. simpl in *.
    destruct (run_add_events_merge (id c) calls Hrest
                (dispatch browser now (AddItem c) s) (items s)
                (with_quantity c (Z.min 99 (quantity c))))
      as (line & Hitems & Hid' & Hq); simpl; try reflexivity; try lia;
      try assumption.
    + rewrite (items_dispatch_addItem _ _ _ Hok). unfold addItem_updater.
      rewrite (find_id_none _ _ Hfresh). reflexivity.
    + exists line. repeat split; try assumption.
      * rewrite Hq. simpl.
        assert (0 <= requested calls).
        { clear - Hrest. induction Hrest as [|? ? (_ & _ & ?) _ ?]; simpl; lia. }
        lia.
      * rewrite Hq. lia.
  - intros t1 t2. unfold subtotal, totalItems. simpl. repeat split.
Qed.

(** *** Derived reads *)

Lemma subtotal_fold (l : list CartItem) (acc : float) :
  fold_left
    (fun sum item =>
       let itemTotal := JS.mul (price item) (quantity item) in
       if PrimFloat.is_nan itemTotal then sum else (sum + itemTotal)%float)
    l acc
  = fold_left PrimFloat.add (Spec.line_totals l) acc.
Proof.
  revert acc. induction l as [|x l IH]; intros acc; [reflexivity|].
  cbn [fold_left Spec.line_totals]. unfold Spec.line_total, JS.mul, JS.ToNumber.
  destruct (price x) as [unit_price|].
  - destruct (PrimFloat.is_nan (unit_price * JS.of_Z (quantity x))).
    + apply IH.
    + cbn [fold_left]. apply IH.
  - rewrite (FloatFacts.mul_nan_l PrimFloat.nan (JS.of_Z (quantity x)) eq_refl).
    apply IH.
Qed.

Lemma totalItems_fold (l : list CartItem) (acc : Z) :
  fold_left (fun sum item => sum + quantity item) l acc
  = acc + Spec.count_of l.
Proof.
  revert acc. induction l as [|x l IH]; intros acc; simpl.
  - unfold Spec.count_of. simpl. lia.
  - rewrite IH. unfold Spec.count_of. simpl. lia.
Qed.

Lemma derived_reads (s : Store) :
  subtotal s = Spec.subtotal_of (items s) /\
  total s = Spec.total_of (Spec.subtotal_of (items s)) (activePromoCode s) /\
  totalItems s = Spec.count_of (items s).
Proof.
  assert (Hsub : subtotal s = Spec.subtotal_of (items s))
    by apply subtotal_fold.
  repeat split; [exact Hsub| |].
  - unfold total, Spec.total_of. rewrite Hsub. reflexivity.
  - unfold totalItems. rewrite totalItems_fold. lia.
Qed.

(** *** The stores a provider can be in *)

(** A mounted provider holds the restored items, no promo code, and the
    storage after the first run of the effect. *)
Lemma mount_store (window blocked : bool) (storage : gmap string string)
  (now : Z) (s : Store) :
  mount browser window blocked storage now = JS.Return (Some s) ->
  exists restored_items,
    s = persistEffect browser window now
          {| items := restored_items; activePromoCode := None;
             isCartAnimating := false; localStorage := storage |}.
Proof.
  unfold mount, mbind, outcome_bind, mret, outcome_ret.
  destruct (initialItems browser window blocked storage now) as [restored|];
    [|discriminate].
  cbn [JS.bind].
  destruct (first_render restored) as [elements|]; [|discriminate].
  cbn [JS.bind].
  destruct (items_of browser elements) as [restored_items|]; [|discriminate].
  intros H. injection H as <-. exists restored_items. reflexivity.
Qed.

Lemma activePromoCode_persistEffect (window : bool) (now : Z) (s : Store) :
  activePromoCode (persistEffect browser window now s) = activePromoCode s.
Proof. unfold persistEffect. destruct window; reflexivity. Qed.

Lemma items_persistEffect (window : bool) (now : Z) (s : Store) :
  items (persistEffect browser window now s) = items s.
Proof. unfold persistEffect. destruct window; reflexivity. Qed.

(** The active promo code of a dispatch is the former one, none, or one
    of the allow-list. *)
Lemma activePromoCode_dispatch_allowed (now : Z) (a : Action) (s : Store) :
  activePromoCode (dispatch browser now a s) = activePromoCode s \/
  activePromoCode (dispatch browser now a s) = None \/
  exists promo, In promo VALID_PROMO_CODES /\
                activePromoCode (dispatch browser now a s) = Some promo.
Proof.
  unfold dispatch, commit.
  destruct (itemsSet (handle a s));
    rewrite ?activePromoCode_persistEffect;
    destruct a as [newItem|id' q|id'| |code'| |]; cbn [handle].
  all: try (unfold addItem; destruct (_ || _); left; reflexivity).
  all: try (unfold updateQuantity; destruct (_ || _); left; reflexivity).
  all: try (left; reflexivity).
  all: try (right; left; reflexivity).
  all: unfold applyPromoCode;
    destruct (find _ VALID_PROMO_CODES) as [promo|] eqn:Hf;
    [|left; reflexivity];
    right; right; exists promo; split;
    [apply find_some in Hf; exact (proj1 Hf)|reflexivity].
Qed.

(** In a store the provider can reach, the active promo code is one of
    the allow-list, if any. *)
Lemma reachable_promo_allowed (s : Store) :
  reachable browser s ->
  activePromoCode s = None \/
  exists promo, In promo VALID_PROMO_CODES /\ activePromoCode s = Some promo.
Proof.
  induction 1 as [window blocked storage now s Hm|now a s Hreach IH].
  - destruct (mount_store _ _ _ _ _ Hm) as [restored_items ->].
    left. apply activePromoCode_persistEffect.
  - destruct (activePromoCode_dispatch_allowed now a s) as [E|[E|E]].
    + rewrite E. exact IH.
    + left. exact E.
    + right. exact E.
Qed.

Lemma reachable_run (events : list (Z * Action)) (s : Store) :
  reachable browser s -> reachable browser (run browser events s).
Proof.
  revert s. induction events as [|[now a] events IH]; intros s Hreach.
  - exact Hreach.
  - cbn [run]. apply IH. apply reachable_dispatch. exact Hreach.
Qed.

(** C5: in every store the provider can reach, and again after any run
    of further events, the subtotal is the sum, from the left, of the
    products price x quantity of the lines, those that are NaN left out;
    the item count is the sum of the quantities; and the total is the
    subtotal when no promo code is active, and otherwise the subtotal
    x (1 - discount/100) for the discount of the active code, which is one
    of the allow-list. *)
Theorem derived_reads_never_stale (s : Store) :
  reachable browser s ->
  forall events : list (Z * Action),
    let s' := run browser events s in
    subtotal s' = Spec.subtotal_of (items s') /\
    totalItems s' = Spec.count_of (items s') /\
    (activePromoCode s' = None /\ total s' = Spec.subtotal_of (items s') \/
     exists promo,
       In promo VALID_PROMO_CODES /\
       activePromoCode s' = Some promo /\
       total s'
       = (Spec.subtotal_of (items s')
          * (1 - JS.of_Z (discount promo) / 100))%float).
Proof.
  intros Hreach events s'.
  assert (Hreach' : reachable browser s') by (apply reachable_run; exact Hreach).
  destruct (derived_reads s') as (Hsub & Htot & Hcount).
  split; [exact Hsub|]. split; [exact Hcount|].
  destruct (reachable_promo_allowed s' Hreach') as [Hp|(promo & Hin & Hp)].
  - left. split; [exact Hp|]. rewrite Htot, Hp. reflexivity.
  - right. exists promo. split; [exact Hin|]. split; [exact Hp|].
    rewrite Htot, Hp. reflexivity.
Qed.

(** *** Restoring at mount *)

Lemma initialItems_saved (storage : gmap string string) (now : Z)
  (saved : string) :
  storage !! CART_STORAGE_KEY = Some saved -> saved <> "" ->
  initialItems browser true false storage now
  = JS.bind
      (JS.try_catch
         (JS.bind (JSON_parse browser saved) (fun parsed =>
          JS.bind (Json.get parsed "items") (fun items =>
          JS.bind (Json.get parsed "expiryDate") (fun expiryDate =>
          JS.bind (ToNumber browser expiryDate) (fun limit =>
          if (JS.of_Z now <? limit)%float
          then JS.Return (Some items) else JS.Return None)))))
         (fun error => JS.Return None))
      (fun returned =>
         match returned with
         | Some restored => JS.Return restored
         | None => JS.Return (Some (Json.array []))
         end).
Proof.
  intros Hs Hne. unfold initialItems. cbn [negb]. rewrite Hs.
  destruct (String.eqb_spec saved "") as [E|_]; [contradiction|].
  reflexivity.
Qed.

(** C6, as the code behaves: a saved text that does not parse, one that
    parses to something else than an object, and one that parses to an
    object whose expiry date is not above the current time or does not
    convert to a number, give the empty array.  A text that parses to an
    object whose expiry date is above the current time gives what the
    object holds under [items], as it is: when the object has no such
    member the initializer returns [undefined] and the first render of
    the provider throws a [TypeError].  And a browser that denies the
    access to the storage throws out of the initializer, where the read
    is not guarded. *)
Theorem initialItems_unvalidated (storage : gmap string string) (now : Z)
  (saved : string) :
  storage !! CART_STORAGE_KEY = Some saved -> saved <> "" ->
  (forall error,
     JSON_parse browser saved = JS.Throw error ->
     initialItems browser true false storage now
     = JS.Return (Some (Json.array []))) /\
  (forall members limit,
     JSON_parse browser saved = JS.Return (Json.object members) ->
     ToNumber browser (Json.member members "expiryDate") = JS.Return limit ->
     (JS.of_Z now <? limit)%float = false ->
     initialItems browser true false storage now
     = JS.Return (Some (Json.array []))) /\
  (forall members limit,
     JSON_parse browser saved = JS.Return (Json.object members) ->
     ToNumber browser (Json.member members "expiryDate") = JS.Return limit ->
     (JS.of_Z now <? limit)%float = true ->
     initialItems browser true false storage now
     = JS.Return (Json.member members "items") /\
     (Json.member members "items" = None ->
      mount browser true false storage now = JS.Throw JS.TypeError)) /\
  (forall members error,
     JSON_parse browser saved = JS.Return (Json.object members) ->
     ToNumber browser (Json.member members "expiryDate") = JS.Throw error ->
     initialItems browser true false storage now
     = JS.Return (Some (Json.array []))) /\
  (forall parsed,
     JSON_parse browser saved = JS.Return parsed ->
     (forall members, parsed <> Json.object members) ->
     initialItems browser true false storage now
     = JS.Return (Some (Json.array []))) /\
  initialItems browser true true storage now = JS.Throw JS.SecurityError /\
  mount browser true true storage now = JS.Throw JS.SecurityError.
Proof.
  intros Hs Hne.
  pose proof (initialItems_saved storage now saved Hs Hne) as Hinit.
  split; [|split; [|split; [|split; [|split; [|split]]]]].
  - intros error Hp. rewrite Hinit, Hp. reflexivity.
  - intros members limit Hp Hn Hlt. rewrite Hinit, Hp.
    cbn [JS.bind Json.get]. rewrite Hn. cbn [JS.bind]. rewrite Hlt.
    reflexivity.
  - intros members limit Hp Hn Hlt.
    assert (Hr : initialItems browser true false storage now
                 = JS.Return (Json.member members "items")).
    { rewrite Hinit, Hp. cbn [JS.bind Json.get]. rewrite Hn.
      cbn [JS.bind]. rewrite Hlt. cbn [JS.try_catch JS.bind].
      destruct (Json.member members "items"); reflexivity. }
    split; [exact Hr|].
    intros Hnone. unfold mount. rewrite Hr, Hnone. reflexivity.
  - intros members error Hp Hn. rewrite Hinit, Hp.
    cbn [JS.bind Json.get]. rewrite Hn. reflexivity.
  - intros parsed Hp Hno. rewrite Hinit, Hp.
    assert (Hnan : (JS.of_Z now <? PrimFloat.nan)%float = false)
      by (apply DoubleFacts.ltb_nan_r; reflexivity).
    destruct parsed as [|b|f|t|elements|members];
      try (cbn; rewrite Hnan; reflexivity).
    + reflexivity.
    + destruct (Hno members eq_refl).
  - reflexivity.
  - reflexivity.
Qed.

(** *** Promo codes *)

(** C7: [applyPromoCode] looks its argument up in the allow-list with both
    sides in lower case.  "welcome10" and "WELCOME10" give the same result,
    an active promo code of discount 10, and so do any two arguments that
    agree in lower case.  A match becomes the active code whatever was
    active before; without a match the store is left as it was and the
    handler reports an error toast.  The items are never set. *)
Theorem applyPromoCode_case_insensitive (s : Store) :
  applyPromoCode "welcome10" s = applyPromoCode "WELCOME10" s /\
  activePromoCode (after (applyPromoCode "welcome10" s))
    = Some {| code := "WELCOME10"; discount := 10 |} /\
  (forall c1 c2, JS.toLowerCase c1 = JS.toLowerCase c2 ->
     applyPromoCode c1 s = applyPromoCode c2 s) /\
  (forall c promo, In promo VALID_PROMO_CODES ->
     JS.toLowerCase (code promo) = JS.toLowerCase c ->
     after (applyPromoCode c s) = setActivePromoCode (Some promo) s /\
     activePromoCode (after (applyPromoCode c s)) = Some promo) /\
  (forall c,
     (forall promo, In promo VALID_PROMO_CODES ->
        JS.toLowerCase (code promo) <> JS.toLowerCase c) ->
     after (applyPromoCode c s) = s /\
     notices (applyPromoCode c s) = [toast_error "Invalid promo code"]) /\
  (forall c now,
     itemsSet (applyPromoCode c s) = false /\
     items (dispatch browser now (ApplyPromoCode c) s) = items s /\
     localStorage (dispatch browser now (ApplyPromoCode c) s)
       = localStorage s).
Proof.
  split; [reflexivity|]. split; [reflexivity|]. split; [|split; [|split]].
  - intros c1 c2 H. unfold applyPromoCode. rewrite H. reflexivity.
  - intros c promo Hin Hc. unfold applyPromoCode. rewrite <- Hc.
    destruct Hin as [<-|[<-|[]]]; split; reflexivity.
  - intros c Hnone. unfold applyPromoCode.
    destruct (find _ VALID_PROMO_CODES) as [promo|] eqn:Hf; [|split; reflexivity].
    apply find_some in Hf. destruct Hf as [Hin Heq].
    apply String.eqb_eq in Heq. destruct (Hnone promo Hin Heq).
  - intros c now. unfold dispatch, commit, handle, applyPromoCode.
    destruct (find _ VALID_PROMO_CODES); repeat split.
Qed.

(** *** Quantities *)

(** C8: for an id that is in the cart, [updateQuantity] with a quantity
    below 1 or above 99 leaves the store as it was and writes nothing;
    with a quantity from 1 to 99 it keeps every line in its place and sets
    the quantity of the lines of that id, of which there is at least one,
    to that very quantity, all else unchanged. *)
Theorem updateQuantity_in_cart (id' : string) (q : Z) (s : Store) :
  In id' (map id (items s)) ->
  (q < 1 \/ 99 < q ->
     after (updateQuantity id' q s) = s /\
     itemsSet (updateQuantity id' q s) = false /\
     forall now, dispatch browser now (UpdateQuantity id' q) s = s) /\
  (1 <= q <= 99 ->
     let items' := items (after (updateQuantity id' q s)) in
     (forall n item, nth_error (items s) n = Some item ->
        nth_error items' n
        = Some (if String.eqb (id item) id' then with_quantity item q
                else item)) /\
     List.length items' = List.length (items s) /\
     (exists line, In line items' /\ id line = id') /\
     (forall line, In line items' -> id line = id' -> quantity line = q) /\
     (forall now,
        items (dispatch browser now (UpdateQuantity id' q) s) = items')).
Proof.
  intros Hin. split.
  - intros Hout. unfold dispatch, commit, handle, updateQuantity.
    replace ((q <? 1) || (q >? 99)) with true; [repeat split|].
    symmetry. apply orb_true_iff. destruct Hout; [left|right]; lia.
  - intros Hq items'. subst items'.
    unfold dispatch, commit, handle, updateQuantity.
    replace ((q <? 1) || (q >? 99)) with false
      by (symmetry; apply orb_false_iff; split; lia).
    simpl. unfold updateQuantity_updater. repeat split.
    + intros n item Hn. rewrite nth_error_map, Hn. reflexivity.
    + apply length_map.
    + apply in_map_iff in Hin. destruct Hin as (x & Hx & Hxin).
      exists (with_quantity x q). split.
      * apply in_map_iff. exists x. rewrite Hx, String.eqb_refl. auto.
      * exact Hx.
    + intros line Hl Hid. apply in_map_iff in Hl.
      destruct Hl as (x & Hx & _).
      destruct (String.eqb (id x) id') eqn:E; subst line; [reflexivity|].
      apply String.eqb_neq in E. contradiction.
Qed.

(** C10: for a quantity from 1 to 99 and an id without a line in the cart,
    [updateQuantity] leaves the item sequence as it was: no line is added
    and none is changed. *)
Theorem updateQuantity_absent_id (id' : string) (q : Z) (s : Store) :
  1 <= q <= 99 ->
  ~ In id' (map id (items s)) ->
  items (after (updateQuantity id' q s)) = items s /\
  forall now,
    items (dispatch browser now (UpdateQuantity id' q) s) = items s.
Proof.
  intros Hq Hfresh. unfold dispatch, commit, handle, updateQuantity.
  replace ((q <? 1) || (q >? 99)) with false
    by (symmetry; apply orb_false_iff; split; lia).
  simpl. unfold updateQuantity_updater.
  rewrite (map_other_ids _ _ _ Hfresh). split; reflexivity.
Qed.

End Facts.

(** *** The claims on the sample data *)

(** A free item, whose price the specification calls valid, is rejected,
    while items with a negative or an infinite price are added. *)
Lemma addItem_price_counterexample :
  (Spec.valid_price (Some 0%float) = true /\
   addItem (Sample.pads 1 (Some 0%float)) Sample.empty_store
   = {| after := Sample.empty_store; itemsSet := false;
        notices := [console_error "Invalid price for item:"] |}) /\
  (Spec.valid_price (Some (-1)%float) = false /\
   items (after (addItem (Sample.pads 1 (Some (-1)%float)) Sample.empty_store))
   = [Sample.pads 1 (Some (-1)%float)]) /\
  (Spec.valid_price (Some infinity) = false /\
   items (after (addItem (Sample.pads 1 (Some infinity)) Sample.empty_store))
   = [Sample.pads 1 (Some infinity)]).
Proof. repeat split. Qed.

(** A requested quantity of 0 is kept as 0, where the clamp into [1, 99]
    would give 1. *)
Lemma addItem_quantity_counterexample :
  let newItem := Sample.pads 0 (Some 6.99%float) in
  Spec.valid_price (price newItem) = true /\
  rejects newItem = false /\
  items Sample.empty_store = [] /\
  items (after (addItem newItem Sample.empty_store)) = [newItem] /\
  quantity newItem = 0 /\
  Spec.clamp_quantity (quantity newItem) = 1.
Proof. repeat split. Qed.

Lemma addItem_appends_capped_witness :
  let newItem := Sample.pads 120 (Some 6.99%float) in
  rejects newItem = false /\
  ~ In (id newItem) (map id (items Sample.empty_store)) /\
  exists line,
    items (after (addItem newItem Sample.empty_store))
      = (items Sample.empty_store ++ [line])%list /\
    line = with_quantity newItem (quantity line) /\
    (99 < quantity newItem -> quantity line = 99) /\
    (quantity newItem <= 99 -> quantity line = quantity newItem).
Proof.
  assert (Hfresh : ~ In "1" (map id (items Sample.empty_store)))
    by (intros H; exact H).
  split; [reflexivity|]. split; [exact Hfresh|].
  exact (addItem_appends_capped (Sample.pads 120 (Some 6.99%float))
           Sample.empty_store eq_refl Hfresh).
Defined.

Lemma addItem_same_id_saturates_witness :
  let calls := [(0, Sample.pads 2 (Some 6.99%float));
                (1, Sample.pads 3 (Some 6.99%float))] in
  calls <> [] /\
  Forall (fun call => id (snd call) = "1" /\ rejects (snd call) = false /\
                      0 < quantity (snd call)) calls /\
  ~ In "1" (map id (items Sample.empty_store)) /\
  exists line,
    items (run Sample.browser (add_events calls) Sample.empty_store)
      = (items Sample.empty_store ++ [line])%list /\
    id line = "1" /\
    quantity line = Z.min 99 (requested calls) /\
    quantity line <= 99.
Proof.
  intros calls.
  assert (Hne : calls <> []) by discriminate.
  assert (Hall : Forall (fun call => id (snd call) = "1" /\
                                     rejects (snd call) = false /\
                                     0 < quantity (snd call)) calls)
    by (repeat constructor).
  assert (Hfresh : ~ In "1" (map id (items Sample.empty_store)))
    by (intros H; exact H).
  split; [exact Hne|]. split; [exact Hall|]. split; [exact Hfresh|].
  exact (proj1 (addItem_same_id_saturates Sample.browser)
           "1" calls Sample.empty_store Hne Hall Hfresh).
Defined.

(** Two calls for one id with the price 0, which the specification calls
    valid, ask for 5 units in all and leave no line. *)
Lemma addItem_same_id_counterexample :
  let calls := [(0, Sample.pads 2 (Some 0%float));
                (1, Sample.pads 3 (Some 0%float))] in
  Forall (fun call => id (snd call) = "1" /\
                      Spec.valid_price (price (snd call)) = true /\
                      0 < quantity (snd call)) calls /\
  Z.min 99 (requested calls) = 5 /\
  items (run Sample.browser (add_events calls) Sample.empty_store) = [].
Proof.
  intros calls.
  split; [repeat constructor|]. split; reflexivity.
Qed.

Lemma derived_reads_never_stale_witness :
  let s := Sample.busy_store in
  let events := [(4, UpdateQuantity "2" 3); (5, RemoveItem "1")] in
  let s' := run Sample.browser events s in
  reachable Sample.browser s /\
  items s' = [Sample.maxi_pads 3] /\
  activePromoCode s' = Some {| code := "SAVE20"; discount := 20 |} /\
  subtotal s' = Spec.subtotal_of (items s') /\
  totalItems s' = Spec.count_of (items s') /\
  (activePromoCode s' = None /\ total s' = Spec.subtotal_of (items s') \/
   exists promo,
     In promo VALID_PROMO_CODES /\
     activePromoCode s' = Some promo /\
     total s'
     = (Spec.subtotal_of (items s')
        * (1 - JS.of_Z (discount promo) / 100))%float).
Proof.
  intros s events s'.
  assert (Hreach : reachable Sample.browser s).
  { unfold s, Sample.busy_store. cbn [run].
    do 3 apply reachable_dispatch.
    apply (reachable_mount _ true false ∅ 0). reflexivity. }
  split; [exact Hreach|]. split; [reflexivity|]. split; [reflexivity|].
  exact (derived_reads_never_stale Sample.browser s Hreach events).
Defined.

Lemma initialItems_unvalidated_witness :
  Sample.damaged_storage !! CART_STORAGE_KEY = Some "{expiryDate}" /\
  JSON_parse Sample.browser "{expiryDate}"
  = JS.Return (Json.object [("expiryDate", Json.number 1000%float)]) /\
  (JS.of_Z 999 <? 1000)%float = true /\
  initialItems Sample.browser true false Sample.damaged_storage 999
  = JS.Return None /\
  mount Sample.browser true false Sample.damaged_storage 999
  = JS.Throw JS.TypeError.
Proof.
  assert (Hs : Sample.damaged_storage !! CART_STORAGE_KEY
               = Some "{expiryDate}") by reflexivity.
  assert (Hne : "{expiryDate}" <> "") by discriminate.
  split; [exact Hs|]. split; [reflexivity|]. split; [reflexivity|].
  destruct (proj1 (proj2 (proj2
              (initialItems_unvalidated Sample.browser Sample.damaged_storage
                 999 "{expiryDate}" Hs Hne)))
              [("expiryDate", Json.number 1000%float)] 1000%float
              eq_refl eq_refl eq_refl) as [Hr Hm].
  split; [exact Hr|]. exact (Hm eq_refl).
Defined.

Lemma updateQuantity_in_cart_witness :
  let s := Sample.one_line_store in
  In "1" (map id (items s)) /\
  (7 < 1 \/ 99 < 7 ->
     after (updateQuantity "1" 7 s) = s /\
     itemsSet (updateQuantity "1" 7 s) = false /\
     forall now, dispatch Sample.browser now (UpdateQuantity "1" 7) s = s) /\
  (1 <= 7 <= 99 ->
     let items' := items (after (updateQuantity "1" 7 s)) in
     (forall n item, nth_error (items s) n = Some item ->
        nth_error items' n
        = Some (if String.eqb (id item) "1" then with_quantity item 7
                else item)) /\
     List.length items' = List.length (items s) /\
     (exists line, In line items' /\ id line = "1") /\
     (forall line, In line items' -> id line = "1" -> quantity line = 7) /\
     (forall now,
        items (dispatch Sample.browser now (UpdateQuantity "1" 7) s)
        = items')).
Proof.
  intros s.
  assert (Hin : In "1" (map id (items s))) by (left; reflexivity).
  split; [exact Hin|].
  exact (updateQuantity_in_cart Sample.browser "1" 7 s Hin).
Defined.

Lemma updateQuantity_absent_id_witness :
  let s := Sample.one_line_store in
  1 <= 7 <= 99 /\
  ~ In "2" (map id (items s)) /\
  items (after (updateQuantity "2" 7 s)) = items s /\
  forall now,
    items (dispatch Sample.browser now (UpdateQuantity "2" 7) s) = items s.
Proof.
  intros s.
  assert (Hq : 1 <= 7 <= 99) by (split; discriminate).
  assert (Hfresh : ~ In "2" (map id (items s)))
    by (intros [H|[]]; discriminate H).
  split; [exact Hq|]. split; [exact Hfresh|].
  exact (updateQuantity_absent_id Sample.browser "2" 7 s Hq Hfresh).
Defined.

End CartTheory.

(** ** The shop page: theorems *)

Module ShopTheory.
Import Shop.





Lemma insert_sorted_perm {A : Type} (comparefn : A -> A -> float) (x : A)
  (l : list A) :
  Permutation (insert_sorted comparefn x l) (x :: l).
Proof.
  induction l as [|y l IH]; simpl; [reflexivity|].
  destruct (0 <? comparefn x y)%float; [|reflexivity].
  rewrite IH. apply perm_swap.
Qed.

Lemma sort_perm {A : Type} (comparefn : A -> A -> float) (l : list A) :
  Permutation (sort comparefn l) l.
Proof.
  induction l as [|x l IH]; simpl; [reflexivity|].
  rewrite insert_sorted_perm. constructor. exact IH.
Qed.

(** A comparator that is never positive moves nothing. *)
Lemma sort_stable_id {A : Type} (comparefn : A -> A -> float) (l : list A) :
  (forall a b, (0 <? comparefn a b)%float = false) ->
  sort comparefn l = l.
Proof.
  intros H. induction l as [|x l IH]; simpl; [reflexivity|].
  rewrite IH. destruct l as [|y l]; simpl; [reflexivity|].
  rewrite H. reflexivity.
Qed.

(** *** Sorting by a key *)

Section Keyed.

Context {A : Type} (comparefn : A -> A -> float) (key : A -> Z)
  (domain : A -> Prop).

(** On the domain the comparator is positive exactly when its first
    argument has the greater key. *)
Hypothesis comparefn_key : forall a b, domain a -> domain b ->
  (0 <? comparefn a b)%float = (key b <? key a).



End Keyed.










End ShopTheory.

(** ** The cart store: further properties *)

Module CartExtra.
Import Cart.

Lemma filter_sublist {A : Type} (f : A -> bool) (l : list A) :
  sublist (List.filter f l) l.
Proof.
  induction l as [|x l IH]; simpl; [constructor|].
  destruct (f x); [apply sublist_skip|apply sublist_cons]; exact IH.
Qed.

Lemma find_none_id (i : string) (l : list CartItem) :
  find (fun item => String.eqb (id item) i) l = None -> ~ In i (map id l).
Proof.
  induction l as [|x l IH]; simpl; intros Hf Hin; [exact Hin|].
  destruct (String.eqb_spec (id x) i) as [E|E]; [discriminate|].
  destruct Hin as [Hin|Hin]; [contradiction|exact (IH Hf Hin)].
Qed.

Lemma filter_other_ids (i : string) (l : list CartItem) :
  ~ In i (map id l) ->
  List.filter (fun item => negb (String.eqb (id item) i)) l = l.
Proof.
  induction l as [|x l IH]; simpl; intros Hfresh; [reflexivity|].
  destruct (String.eqb_spec (id x) i) as [E|E]; simpl.
  - destruct Hfresh. left. exact E.
  - f_equal. apply IH. intros Hin. apply Hfresh. right. exact Hin.
Qed.

(** A handler that does not call [setItems] leaves the items and the
    storage alone. *)
Lemma handle_without_setItems (a : Action) (s : Store) :
  itemsSet (handle a s) = false ->
  items (after (handle a s)) = items s /\
  localStorage (after (handle a s)) = localStorage s.
Proof.
  destruct a; simpl; try discriminate.
  - unfold addItem. destruct (_ || _); [split; reflexivity|discriminate].
  - unfold updateQuantity. destruct (_ || _); [split; reflexivity|discriminate].
  - unfold applyPromoCode. destruct (find _ _); split; reflexivity.
  - split; reflexivity.
  - split; reflexivity.
Qed.

(** No handler touches another key of the storage. *)
Lemma handle_other_keys (a : Action) (s : Store) (key : string) :
  key <> CART_STORAGE_KEY ->
  localStorage (after (handle a s)) !! key = localStorage s !! key.
Proof.
  intros Hkey. destruct a; simpl; try reflexivity.
  - unfold addItem. destruct (_ || _); reflexivity.
  - unfold updateQuantity. destruct (_ || _); reflexivity.
  - apply lookup_delete_ne. congruence.
  - unfold applyPromoCode. destruct (find _ _); reflexivity.
Qed.

Section Facts.

Variable browser : Browser.

Lemma items_dispatch (now : Z) (a : Action) (s : Store) :
  items (dispatch browser now a s) = items (after (handle a s)).
Proof. unfold dispatch, commit. destruct (itemsSet _); reflexivity. Qed.

Lemma activePromoCode_dispatch (now : Z) (a : Action) (s : Store) :
  activePromoCode (dispatch browser now a s)
  = activePromoCode (after (handle a s)).
Proof. unfold dispatch, commit. destruct (itemsSet _); reflexivity. Qed.

(** X1: [removeItem] leaves exactly the lines of another id, in the order
    they had; no line of the removed id is left, and with an id that has
    no line the items stay as they were. *)
Theorem removeItem_removes (now : Z) (id' : string) (s : Store) :
  let items' := items (dispatch browser now (RemoveItem id') s) in
  ~ In id' (map id items') /\
  (forall line, In line items' <-> In line (items s) /\ id line <> id') /\
  sublist items' (items s) /\
  (~ In id' (map id (items s)) -> items' = items s).
Proof.
  intros items'. subst items'. rewrite items_dispatch. simpl.
  assert (Hmem : forall line,
             In line (List.filter (fun item => negb (String.eqb (id item) id'))
                        (items s))
             <-> In line (items s) /\ id line <> id').
  { intros line. rewrite filter_In, negb_true_iff, String.eqb_neq. tauto. }
  split; [|split; [exact Hmem|split]].
  - intros Hin. apply in_map_iff in Hin. destruct Hin as (line & Hid & Hin).
    apply Hmem in Hin. tauto.
  - apply filter_sublist.
  - apply filter_other_ids.
Qed.

(** X2: removing an item right after adding it, when its id had no line,
    gives the items back as they were before. *)
Theorem removeItem_undoes_addItem (t1 t2 : Z) (c : CartItem) (s : Store) :
  rejects c = false ->
  ~ In (id c) (map id (items s)) ->
  items (run browser [(t1, AddItem c); (t2, RemoveItem (id c))] s)
  = items s.
Proof.
  intros Hok Hfresh. cbn [run]. rewrite items_dispatch.
  cbn [handle]. unfold removeItem, setItems. cbn [after items].
  rewrite (CartTheory.items_dispatch_addItem _ _ _ _ Hok).
  unfold addItem_updater. rewrite (CartTheory.find_id_none _ _ Hfresh).
  rewrite List.filter_app. simpl. rewrite String.eqb_refl. simpl.
  rewrite app_nil_r. apply filter_other_ids. exact Hfresh.
Qed.

(** *** The storage entry *)

Lemma persisted_dispatch (now written : Z) (a : Action) (s : Store) :
  Invariant.persisted browser written s ->
  Invariant.persisted browser
    (if itemsSet (handle a s) then now else written)
    (dispatch browser now a s).
Proof.
  intros Hs. unfold Invariant.persisted, dispatch, commit.
  destruct (itemsSet (handle a s)) eqn:Hset.
  - unfold persistEffect. simpl. apply lookup_insert_eq.
  - destruct (handle_without_setItems a s Hset) as [Hi Hl].
    rewrite Hi, Hl. exact Hs.
Qed.

Lemma persisted_run (events : list (Z * Action)) (written : Z) (s : Store) :
  Invariant.persisted browser written s ->
  Invariant.persisted browser (written_after browser events s written)
    (run browser events s).
Proof.
  revert written s.
  induction events as [|[t a] events IH]; intros written s Hs;
    cbn [run written_after]; [exact Hs|].
  apply IH. apply persisted_dispatch. exact Hs.
Qed.

(** X3: in a browser, from the mount on and after any events, the storage
    entry under the cart key is the envelope of the current items, and its
    expiry date is seven calendar days after the last write: the time of
    the last event whose handler has set the items, or that of the mount
    when there was none. *)
Theorem persisted_after_run (storage : gmap string string) (now : Z)
  (s0 : Store) (events : list (Z * Action)) :
  mount browser true false storage now = JS.Return (Some s0) ->
  Invariant.persisted browser (written_after browser events s0 now)
    (run browser events s0).
Proof.
  intros Hmount. apply persisted_run.
  destruct (CartTheory.mount_store _ _ _ _ _ _ Hmount) as [restored_items ->].
  unfold Invariant.persisted, persistEffect. simpl. apply lookup_insert_eq.
Qed.

(** X4: no event ever touches a key of the storage other than the cart
    key. *)
Theorem other_keys_untouched (events : list (Z * Action)) (s : Store)
  (key : string) :
  key <> CART_STORAGE_KEY ->
  localStorage (run browser events s) !! key = localStorage s !! key.
Proof.
  intros Hkey. revert s.
  induction events as [|[t a] events IH]; intros s; simpl; [reflexivity|].
  rewrite IH. unfold dispatch, commit.
  destruct (itemsSet (handle a s)).
  - unfold persistEffect. simpl. rewrite lookup_insert_ne by congruence.
    apply handle_other_keys. exact Hkey.
  - apply handle_other_keys. exact Hkey.
Qed.

(** X5: what an action that sets the items has persisted comes back at the
    next mount, if the browser's JSON functions give the envelope back
    from its text, as an object whose [items] are an array standing for
    the items and whose [expiryDate] is the number written.  The expiry
    date is the one the browser's calendar gives for seven days after the
    write: at a mount strictly before it the items are restored as they
    were, without promo code; from then on the cart starts empty.  (Times
    are below 2^53 milliseconds in magnitude.) *)
Theorem reload_restores (now later : Z) (a : Action) (s : Store)
  (members : list (string * Json.value)) (elements : list Json.value) :
  itemsSet (handle a s) = true ->
  let s' := dispatch browser now a s in
  let expiry := Date_plus_days browser now CART_EXPIRY_DAYS in
  let saved :=
    JSON_stringify browser
      {| Envelope.items := items s'; Envelope.expiryDate := expiry |} in
  saved <> "" ->
  JSON_parse browser saved = JS.Return (Json.object members) ->
  Json.member members "items" = Some (Json.array elements) ->
  Json.member members "expiryDate" = Some (Json.number (JS.of_Z expiry)) ->
  existsb Json.is_null elements = false ->
  items_of browser elements = Some (items s') ->
  items_of browser [] = Some [] ->
  Z.abs later < 2 ^ 53 -> Z.abs expiry < 2 ^ 53 ->
  (later < expiry ->
     exists s'',
       mount browser true false (localStorage s') later
       = JS.Return (Some s'') /\
       items s'' = items s' /\ activePromoCode s'' = None) /\
  (expiry <= later ->
     exists s'',
       mount browser true false (localStorage s') later
       = JS.Return (Some s'') /\
       items s'' = []).
Proof.
  intros Hset s' expiry saved Hne Hparse Hitems Hexpiry Hnull Hof Hnil
    Hlater Hrange.
  assert (Hl : localStorage s' !! CART_STORAGE_KEY = Some saved).
  { subst s' saved expiry. unfold dispatch, commit. rewrite Hset.
    unfold persistEffect. simpl. apply lookup_insert_eq. }
  pose proof (CartTheory.initialItems_saved browser (localStorage s') later
                saved Hl Hne) as Hinit.
  rewrite Hparse in Hinit. cbn [JS.bind Json.get] in Hinit.
  rewrite Hitems, Hexpiry in Hinit. cbn [JS.bind ToNumber mret outcome_ret] in Hinit.
  destruct (DoubleFacts.of_Z_ltb later expiry Hlater Hrange) as [Hlt _].
  rewrite Hlt in Hinit.
  unfold mount. rewrite Hinit.
  split; intros Ht.
  - destruct (Z.ltb_spec later expiry); [|lia].
    cbn. rewrite Hnull. cbn. rewrite Hof.
    eexists. split; [reflexivity|]. split; reflexivity.
  - destruct (Z.ltb_spec later expiry); [lia|].
    cbn. rewrite Hnil.
    eexists. split; reflexivity.
Qed.

(** *** Invariants *)

(** X6: the active promo code of a provider is always one of the
    allow-list, so that its discount is 10 or 20. *)
Theorem promo_always_valid (s : Store) :
  reachable browser s ->
  activePromoCode s = None \/
  exists promo,
    activePromoCode s = Some promo /\
    In promo VALID_PROMO_CODES /\
    (discount promo = 10 \/ discount promo = 20).
Proof.
  intros Hreach.
  destruct (CartTheory.reachable_promo_allowed browser s Hreach)
    as [Hp|(promo & Hin & Hp)]; [left; exact Hp|].
  right. exists promo. split; [exact Hp|]. split; [exact Hin|].
  destruct Hin as [<-|[<-|[]]]; [left|right]; reflexivity.
Qed.

Lemma in_addItem_updater (c line : CartItem) (l : list CartItem) :
  In line (addItem_updater c l) ->
  In line l \/
  (exists old, In old l /\
               line = with_quantity old (Z.min 99 (quantity old + quantity c))) \/
  line = with_quantity c (Z.min 99 (quantity c)).
Proof.
  unfold addItem_updater, JS.Math_min. destruct (find _ l).
  - intros Hin. apply in_map_iff in Hin. destruct Hin as (old & Hold & Hin).
    destruct (String.eqb (id old) (id c)); subst line; eauto.
  - intros Hin. apply in_app_iff in Hin. destruct Hin as [Hin|[<-|[]]]; auto.
Qed.

Lemma in_updateQuantity_updater (i : string) (q : Z) (line : CartItem)
  (l : list CartItem) :
  In line (updateQuantity_updater i q l) ->
  In line l \/ quantity line = q.
Proof.
  unfold updateQuantity_updater. intros Hin. apply in_map_iff in Hin.
  destruct Hin as (old & Hold & Hin).
  destruct (String.eqb (id old) i); subst line; auto.
Qed.

(** The guard of [updateQuantity] on a double that is an integer is the
    test of the integer. *)
Lemma quantity_refused_integer (q : Z) :
  Z.abs q < 2 ^ 53 ->
  quantity_refused (JS.of_Z q) = (q <? 1) || (q >? 99).
Proof.
  intros Hq. unfold quantity_refused.
  change 1%float with (JS.of_Z 1). change 99%float with (JS.of_Z 99).
  rewrite (proj1 (DoubleFacts.of_Z_ltb q 1 Hq eq_refl)).
  rewrite (proj1 (DoubleFacts.of_Z_ltb 99 q eq_refl Hq)).
  rewrite Z.gtb_ltb. reflexivity.
Qed.

(** X7: among carts and actions whose quantities are integers, no action
    brings a line above 99 units in a cart that has none; and in a cart
    whose lines all hold from 1 to 99 units, every action other than
    adding less than one unit keeps them so.  On integers below 2^53 in
    magnitude the guard of [updateQuantity], which compares doubles, is
    the test [q < 1 || q > 99] of the integer; on [NaN], which is no
    quantity of these carts, it refuses nothing. *)
Theorem quantities_stay_in_range (now : Z) (a : Action) (s : Store) :
  (Invariant.capped (items s) ->
   Invariant.capped (items (dispatch browser now a s))) /\
  (Invariant.in_range (items s) -> Invariant.adds_units a ->
   Invariant.in_range (items (dispatch browser now a s))) /\
  (forall q, Z.abs q < 2 ^ 53 ->
     quantity_refused (JS.of_Z q) = (q <? 1) || (q >? 99)) /\
  quantity_refused PrimFloat.nan = false.
Proof.
  split; [|split; [|split; [exact quantity_refused_integer|reflexivity]]];
    unfold Invariant.capped, Invariant.in_range; rewrite items_dispatch;
    rewrite !List.Forall_forall.
  - intros H line Hin. destruct a; simpl in Hin; try (apply H; exact Hin).
    + unfold addItem in Hin. destruct (_ || _); simpl in Hin; [auto|].
      apply in_addItem_updater in Hin.
      destruct Hin as [Hin|[(old & Hold & ->)| ->]]; simpl; auto; lia.
    + unfold updateQuantity in Hin.
      destruct (Z.ltb_spec quantity' 1); simpl in Hin; [auto|].
      destruct (Z.gtb_spec quantity' 99); simpl in Hin; [auto|].
      apply in_updateQuantity_updater in Hin. destruct Hin; [auto|lia].
    + apply filter_In in Hin. apply H. tauto.
    + destruct Hin.
    + unfold applyPromoCode in Hin. destruct (find _ _); apply H; exact Hin.
  - intros H Hadd line Hin.
    destruct a; simpl in Hin, Hadd; try (apply H; exact Hin).
    + unfold addItem in Hin. destruct (_ || _); simpl in Hin; [auto|].
      apply in_addItem_updater in Hin.
      destruct Hin as [Hin|[(old & Hold & ->)| ->]]; simpl; auto.
      * specialize (H old Hold). lia.
      * lia.
    + unfold updateQuantity in Hin.
      destruct (Z.ltb_spec quantity' 1); simpl in Hin; [auto|].
      destruct (Z.gtb_spec quantity' 99); simpl in Hin; [auto|].
      apply in_updateQuantity_updater in Hin. destruct Hin; [auto|lia].
    + apply filter_In in Hin. apply H. tauto.
    + destruct Hin.
    + unfold applyPromoCode in Hin. destruct (find _ _); apply H; exact Hin.
Qed.

Lemma map_id_update (i : string) (f : Z -> Z) (l : list CartItem) :
  map id
    (map (fun item =>
            if String.eqb (id item) i then with_quantity item (f (quantity item))
            else item) l)
  = map id l.
Proof.
  rewrite map_map. apply map_ext. intros item.
  destruct (String.eqb (id item) i); reflexivity.
Qed.

Lemma distinct_filter (f : CartItem -> bool) (l : list CartItem) :
  List.NoDup (map id l) -> List.NoDup (map id (List.filter f l)).
Proof.
  induction l as [|x l IH]; simpl; intros Hnd; [exact Hnd|].
  apply List.NoDup_cons_iff in Hnd. destruct Hnd as [Hx Hnd].
  destruct (f x); simpl; [|auto].
  apply List.NoDup_cons_iff. split; [|auto].
  intros Hin. apply Hx. apply in_map_iff in Hin.
  destruct Hin as (y & Hy & Hin). apply filter_In in Hin.
  apply in_map_iff. exists y. tauto.
Qed.

(** X8: a cart whose lines have distinct ids keeps them distinct under
    every action. *)
Theorem ids_stay_distinct (now : Z) (a : Action) (s : Store) :
  Invariant.distinct_ids (items s) ->
  Invariant.distinct_ids (items (dispatch browser now a s)).
Proof.
  unfold Invariant.distinct_ids. rewrite items_dispatch. intros Hnd.
  destruct a; simpl; try exact Hnd.
  - unfold addItem. destruct (_ || _); simpl; [exact Hnd|].
    unfold addItem_updater.
    destruct (find _ (items s)) eqn:Hf.
    + rewrite (map_id_update (id newItem)
                 (fun q => JS.Math_min 99 (q + quantity newItem))).
      exact Hnd.
    + rewrite map_app. simpl.
      apply (Permutation_NoDup (Permutation_cons_append _ _)).
      apply List.NoDup_cons_iff. split; [|exact Hnd].
      apply find_none_id. exact Hf.
  - unfold updateQuantity. destruct (_ || _); simpl; [exact Hnd|].
    unfold updateQuantity_updater.
    rewrite (map_id_update id' (fun _ => quantity')). exact Hnd.
  - apply distinct_filter. exact Hnd.
  - constructor.
  - unfold applyPromoCode. destruct (find _ _); exact Hnd.
Qed.

(** *** How the actions compose *)

(** X9: adding an item whose id has a line changes nothing but the
    quantity of the lines of that id, which grows by the requested
    quantity up to 99: the lines keep their place, and the name, the image
    and the price of the added item are ignored. *)
Theorem addItem_merges (now : Z) (c : CartItem) (s : Store) :
  rejects c = false ->
  In (id c) (map id (items s)) ->
  let items' := items (dispatch browser now (AddItem c) s) in
  List.length items' = List.length (items s) /\
  forall n line, nth_error (items s) n = Some line ->
    nth_error items' n
    = Some (if String.eqb (id line) (id c)
            then with_quantity line (Z.min 99 (quantity line + quantity c))
            else line).
Proof.
  intros Hok Hin items'. subst items'.
  rewrite (CartTheory.items_dispatch_addItem _ _ _ _ Hok).
  unfold addItem_updater.
  destruct (CartTheory.find_id_some _ _ Hin) as [x ->].
  split; [apply length_map|].
  intros n line Hn. rewrite nth_error_map, Hn. reflexivity.
Qed.

(** X10: adding an item whose id has no line raises the item count by the
    requested quantity, or by 99 if more was requested. *)
Theorem totalItems_after_fresh_add (now : Z) (c : CartItem) (s : Store) :
  rejects c = false ->
  ~ In (id c) (map id (items s)) ->
  totalItems (dispatch browser now (AddItem c) s)
  = totalItems s + Z.min 99 (quantity c).
Proof.
  intros Hok Hfresh. unfold totalItems.
  rewrite (CartTheory.items_dispatch_addItem _ _ _ _ Hok).
  unfold addItem_updater. rewrite (CartTheory.find_id_none _ _ Hfresh).
  rewrite fold_left_app. reflexivity.
Qed.

(** X11: [removePromoCode] brings the total back to the subtotal whatever
    was applied before, and neither applying nor removing a promo code
    changes the items, the subtotal or the storage. *)
Theorem removePromoCode_restores_total (t1 t2 : Z) (c : string) (s : Store) :
  let s1 := dispatch browser t1 (ApplyPromoCode c) s in
  let s2 := dispatch browser t2 RemovePromoCode s1 in
  subtotal s1 = subtotal s /\
  items s2 = items s /\
  localStorage s2 = localStorage s /\
  activePromoCode s2 = None /\
  total s2 = subtotal s.
Proof.
  unfold dispatch, commit, handle, applyPromoCode.
  destruct (find _ VALID_PROMO_CODES); repeat split.
Qed.

(** X12: of two [updateQuantity] in a row for one id, the second, when its
    quantity is from 1 to 99, decides alone. *)
Theorem updateQuantity_last_wins (t1 t2 : Z) (id' : string) (q1 q2 : Z)
  (s : Store) :
  1 <= q2 <= 99 ->
  items (run browser
           [(t1, UpdateQuantity id' q1); (t2, UpdateQuantity id' q2)] s)
  = items (dispatch browser t2 (UpdateQuantity id' q2) s).
Proof.
  intros Hq.
  assert (Hup : forall q st,
             items (after (updateQuantity id' q st))
             = if (q <? 1) || (q >? 99) then items st
               else updateQuantity_updater id' q (items st)).
  { intros q st. unfold updateQuantity. destruct (_ || _); reflexivity. }
  cbn [run]. rewrite !items_dispatch. cbn [handle].
  rewrite !Hup, items_dispatch. cbn [handle]. rewrite Hup.
  replace ((q2 <? 1) || (q2 >? 99)) with false
    by (symmetry; apply orb_false_iff; split; lia).
  destruct ((q1 <? 1) || (q1 >? 99)); [reflexivity|].
  unfold updateQuantity_updater.
  rewrite map_map. apply map_ext. intros item.
  destruct (String.eqb (id item) id') eqn:E; simpl; rewrite E; reflexivity.
Qed.

End Facts.

(** *** The properties on the sample data *)

Lemma removeItem_undoes_addItem_witness :
  let c := Sample.pads 3 (Some 6.99%float) in
  rejects c = false /\
  ~ In (id c) (map id (items Sample.empty_store)) /\
  items (run Sample.browser [(0, AddItem c); (1, RemoveItem (id c))]
           Sample.empty_store)
  = items Sample.empty_store.
Proof.
  intros c.
  assert (Hfresh : ~ In (id c) (map id (items Sample.empty_store)))
    by (intros H; exact H).
  split; [reflexivity|]. split; [exact Hfresh|].
  exact (removeItem_undoes_addItem Sample.browser 0 1 c Sample.empty_store
           eq_refl Hfresh).
Defined.

Lemma persisted_after_run_witness :
  let events :=
    [(5, AddItem (Sample.pads 3 (Some 6.99%float)));
     (6, ApplyPromoCode "save20"); (9, ClearCart); (12, RemovePromoCode)] in
  mount Sample.browser true false ∅ 0
  = JS.Return (Some Sample.mounted_store) /\
  written_after Sample.browser events Sample.mounted_store 0 = 9 /\
  Invariant.persisted Sample.browser 9
    (run Sample.browser events Sample.mounted_store).
Proof.
  intros events.
  assert (Hm : mount Sample.browser true false ∅ 0
               = JS.Return (Some Sample.mounted_store)) by reflexivity.
  split; [exact Hm|]. split; [reflexivity|].
  exact (persisted_after_run Sample.browser ∅ 0 Sample.mounted_store events
           Hm).
Defined.

Lemma other_keys_untouched_witness :
  let events := [(5, AddItem (Sample.pads 3 (Some 6.99%float))); (9, ClearCart)] in
  "theme" <> CART_STORAGE_KEY /\
  localStorage (run Sample.browser events Sample.empty_store) !! "theme"
  = localStorage Sample.empty_store !! "theme".
Proof.
  intros events.
  assert (Hkey : "theme" <> CART_STORAGE_KEY) by discriminate.
  split; [exact Hkey|].
  exact (other_keys_untouched Sample.browser events Sample.empty_store
           "theme" Hkey).
Defined.

Lemma reload_restores_witness :
  let now := -604799000 in
  let a := UpdateQuantity "1" 2 in
  let s := Sample.one_line_store in
  let s' := dispatch Sample.browser now a s in
  let members :=
    [("items", Json.array [Sample.pads_value]);
     ("expiryDate", Json.number 1000%float)] in
  itemsSet (handle a s) = true /\
  Date_plus_days Sample.browser now CART_EXPIRY_DAYS = 1000 /\
  JSON_parse Sample.browser
    (JSON_stringify Sample.browser
       {| Envelope.items := items s'; Envelope.expiryDate := 1000 |})
  = JS.Return (Json.object members) /\
  items_of Sample.browser [Sample.pads_value] = Some (items s') /\
  exists s'',
    mount Sample.browser true false (localStorage s') 999
    = JS.Return (Some s'') /\
    items s'' = items s' /\ activePromoCode s'' = None.
Proof.
  intros now a s s' members.
  assert (Hne : JSON_stringify Sample.browser
                  {| Envelope.items := items s';
                     Envelope.expiryDate :=
                       Date_plus_days Sample.browser now CART_EXPIRY_DAYS |}
                <> "") by discriminate.
  assert (Hlater : Z.abs 999 < 2 ^ 53) by reflexivity.
  assert (Hrange : Z.abs (Date_plus_days Sample.browser now CART_EXPIRY_DAYS)
                   < 2 ^ 53) by reflexivity.
  assert (Hlt : 999 < Date_plus_days Sample.browser now CART_EXPIRY_DAYS)
    by reflexivity.
  split; [reflexivity|]. split; [reflexivity|]. split; [reflexivity|].
  split; [reflexivity|].
  exact (proj1 (reload_restores Sample.browser now 999 a s members
                  [Sample.pads_value] eq_refl Hne eq_refl eq_refl eq_refl
                  eq_refl eq_refl eq_refl Hlater Hrange) Hlt).
Defined.

Lemma promo_always_valid_witness :
  let s := dispatch Sample.browser 3 (ApplyPromoCode "save20")
             Sample.mounted_store in
  reachable Sample.browser s /\
  (activePromoCode s = None \/
   exists promo,
     activePromoCode s = Some promo /\
     In promo VALID_PROMO_CODES /\
     (discount promo = 10 \/ discount promo = 20)).
Proof.
  intros s.
  assert (Hreach : reachable Sample.browser s).
  { apply reachable_dispatch.
    apply (reachable_mount _ true false ∅ 0). reflexivity. }
  split; [exact Hreach|].
  exact (promo_always_valid Sample.browser s Hreach).
Defined.

Lemma ids_stay_distinct_witness :
  let a := AddItem (Sample.pads 3 (Some 6.99%float)) in
  Invariant.distinct_ids (items Sample.one_line_store) /\
  Invariant.distinct_ids
    (items (dispatch Sample.browser 5 a Sample.one_line_store)).
Proof.
  intros a.
  assert (Hnd : Invariant.distinct_ids (items Sample.one_line_store)).
  { repeat constructor. intros H. exact H. }
  split; [exact Hnd|].
  exact (ids_stay_distinct Sample.browser 5 a Sample.one_line_store Hnd).
Defined.

Lemma addItem_merges_witness :
  let c := Sample.pads 98 (Some 1%float) in
  let s := Sample.one_line_store in
  rejects c = false /\
  In (id c) (map id (items s)) /\
  let items' := items (dispatch Sample.browser 5 (AddItem c) s) in
  List.length items' = List.length (items s) /\
  forall n line, nth_error (items s) n = Some line ->
    nth_error items' n
    = Some (if String.eqb (id line) (id c)
            then with_quantity line (Z.min 99 (quantity line + quantity c))
            else line).
Proof.
  intros c s.
  assert (Hin : In (id c) (map id (items s))) by (left; reflexivity).
  split; [reflexivity|]. split; [exact Hin|].
  exact (addItem_merges Sample.browser 5 c s eq_refl Hin).
Defined.

Lemma totalItems_after_fresh_add_witness :
  let c := Sample.pads 120 (Some 6.99%float) in
  rejects c = false /\
  ~ In (id c) (map id (items Sample.empty_store)) /\
  totalItems (dispatch Sample.browser 5 (AddItem c) Sample.empty_store)
  = totalItems Sample.empty_store + Z.min 99 (quantity c).
Proof.
  intros c.
  assert (Hfresh : ~ In (id c) (map id (items Sample.empty_store)))
    by (intros H; exact H).
  split; [reflexivity|]. split; [exact Hfresh|].
  exact (totalItems_after_fresh_add Sample.browser 5 c Sample.empty_store
           eq_refl Hfresh).
Defined.

Lemma updateQuantity_last_wins_witness :
  1 <= 7 <= 99 /\
  items (run Sample.browser
           [(1, UpdateQuantity "1" 40); (2, UpdateQuantity "1" 7)]
           Sample.one_line_store)
  = items (dispatch Sample.browser 2 (UpdateQuantity "1" 7)
             Sample.one_line_store).
Proof.
  assert (Hq : 1 <= 7 <= 99) by (split; discriminate).
  split; [exact Hq|].
  exact (updateQuantity_last_wins Sample.browser 1 2 "1" 40 7
           Sample.one_line_store Hq).
Defined.

End CartExtra.

(** ** The product carousel: properties *)

Module CarouselTheory.
Import Carousel.

(** Every quantity of the state is from 1 to 99. *)
Definition all_in_range (object : gmap Z Z) : Prop :=
  forall key q, object !! key = Some q -> 1 <= q <= 99.

Lemma fromEntries_ones (ids : list Z) (object : gmap Z Z) :
  all_in_range object ->
  all_in_range
    (fold_left (fun object entry => <[fst entry := snd entry]> object)
       (map (fun i => (i, 1)) ids) object).
Proof.
  revert object. induction ids as [|i ids IH]; intros object H; simpl;
    [exact H|].
  apply IH. intros key q Hq.
  destruct (decide (i = key)) as [->|Hne].
  - rewrite lookup_insert_eq in Hq. injection Hq as <-. lia.
  - rewrite lookup_insert_ne in Hq by exact Hne. exact (H key q Hq).
Qed.

Lemma fromEntries_keys (ids : list Z) (object : gmap Z Z) (key : Z) :
  In key ids \/ is_Some (object !! key) ->
  is_Some
    (fold_left (fun object entry => <[fst entry := snd entry]> object)
       (map (fun i => (i, 1)) ids) object !! key).
Proof.
  revert object. induction ids as [|i ids IH]; intros object H; simpl.
  - destruct H as [[]|H]. exact H.
  - apply IH. destruct H as [[->|H]|H]; [right|left; exact H|right].
    + rewrite lookup_insert_eq. eauto.
    + destruct (decide (i = key)) as [->|Hne].
      * rewrite lookup_insert_eq. eauto.
      * rewrite lookup_insert_ne by exact Hne. exact H.
Qed.

Lemma handleQuantityChange_in_range (productId : Z) (value : string)
  (st : State) :
  all_in_range (quantities st) ->
  all_in_range (quantities (handleQuantityChange productId value st)).
Proof.
  intros H key q Hq. simpl in Hq.
  destruct (decide (productId = key)) as [->|Hne].
  - rewrite lookup_insert_eq in Hq. injection Hq as <-.
    unfold JS.Math_max, JS.Math_min. lia.
  - rewrite lookup_insert_ne in Hq by exact Hne. exact (H key q Hq).
Qed.

Lemma typed_invariant (catalog : list Product.t) (changes : list (Z * string)) :
  let st := typed changes (initial catalog) in
  all_in_range (quantities st) /\
  forall product, In product catalog ->
    is_Some (quantities st !! Product.id product).
Proof.
  unfold typed.
  assert (H0 : all_in_range (quantities (initial catalog)) /\
               forall product, In product catalog ->
                 is_Some (quantities (initial catalog) !! Product.id product)).
  { unfold initial, fromEntries. simpl. split.
    - rewrite <- (map_map Product.id (fun i => (i, 1))).
      apply fromEntries_ones. intros key q Hq.
      rewrite lookup_empty in Hq. discriminate.
    - intros product Hin.
      rewrite <- (map_map Product.id (fun i => (i, 1))).
      apply fromEntries_keys. left. apply in_map. exact Hin. }
  revert H0. generalize (initial catalog).
  induction changes as [|[productId value] changes IH]; intros st [Hr Hk];
    simpl; [split; assumption|].
  apply IH. split.
  - apply handleQuantityChange_in_range. exact Hr.
  - intros product Hin. simpl.
    destruct (decide (productId = Product.id product)) as [->|Hne].
    + rewrite lookup_insert_eq. eauto.
    + rewrite lookup_insert_ne by exact Hne. exact (Hk product Hin).
Qed.

(** X13: whatever text is typed for a product, the quantity kept for it is
    from 1 to 99, and the quantities of the other products and the flying
    image are left alone. *)
Theorem handleQuantityChange_clamps (productId : Z) (value : string)
  (st : State) :
  let st' := handleQuantityChange productId value st in
  (exists q, quantities st' !! productId = Some q /\ 1 <= q <= 99) /\
  (forall other, other <> productId ->
     quantities st' !! other = quantities st !! other) /\
  animatingProduct st' = animatingProduct st.
Proof.
  simpl. split; [|split; [|reflexivity]].
  - eexists. split; [apply lookup_insert_eq|].
    unfold JS.Math_max, JS.Math_min. lia.
  - intros other Hne. apply lookup_insert_ne. congruence.
Qed.

(** X14: from the first render on and whatever is typed, every product of
    the catalog has a quantity, and every quantity of the state is from 1
    to 99. *)
Theorem quantities_always_in_range (catalog : list Product.t)
  (changes : list (Z * string)) :
  let st := typed changes (initial catalog) in
  (forall key q, quantities st !! key = Some q -> 1 <= q <= 99) /\
  (forall product, In product catalog ->
     exists q, quantities st !! Product.id product = Some q /\ 1 <= q <= 99).
Proof.
  intros st. destruct (typed_invariant catalog changes) as [Hr Hk].
  split; [exact Hr|].
  intros product Hin. destruct (Hk product Hin) as [q Hq].
  exists q. split; [exact Hq|exact (Hr _ _ Hq)].
Qed.

(** The decimal writings of the integers from -999 to 999 are read back
    by [parseInt]. *)
Lemma parseInt_ToString_small :
  forallb
    (fun n => match JS.parseInt (JS.ToString n) with
              | Some m => m =? n
              | None => false
              end)
    (map (fun k => Z.of_nat k - 999) (seq 0 1999)) = true.
Proof. vm_compute. reflexivity. Qed.

(** X15: typing the decimal writing of an integer from -999 to 999 keeps
    that integer clamped into 1 to 99: itself from 1 to 99, 1 below and 99
    above.  A text in which [parseInt] finds no number keeps 1. *)
Theorem handleQuantityChange_decimal (productId : Z) (st : State) :
  (forall n, -999 <= n <= 999 ->
     quantities (handleQuantityChange productId (JS.ToString n) st)
       !! productId
     = Some (Z.max 1 (Z.min 99 n))) /\
  (forall value, JS.parseInt value = None ->
     quantities (handleQuantityChange productId value st) !! productId
     = Some 1).
Proof.
  split.
  - intros n Hn. simpl. rewrite lookup_insert_eq. f_equal.
    assert (Hp : JS.parseInt (JS.ToString n) = Some n).
    { pose proof parseInt_ToString_small as H.
      rewrite forallb_forall in H. specialize (H n).
      destruct (JS.parseInt (JS.ToString n)) as [m|].
      - f_equal. apply Z.eqb_eq. apply H. apply in_map_iff.
        exists (Z.to_nat (n + 999)). split; [lia|]. apply in_seq. lia.
      - discriminate H. apply in_map_iff.
        exists (Z.to_nat (n + 999)). split; [lia|]. apply in_seq. lia. }
    rewrite Hp. unfold JS.or_else, JS.Math_max, JS.Math_min.
    destruct n; lia.
  - intros value Hp. simpl. rewrite lookup_insert_eq, Hp. reflexivity.
Qed.

(** X16: for every product of the shop's catalog and whatever was typed
    before, [handleAddToCart] hands [addItem] an item that passes its
    guard, with a quantity from 1 to 99; so the items are set, and a cart
    whose lines all hold from 1 to 99 units still does after it. *)
Theorem handleAddToCart_in_range (changes : list (Z * string))
  (product : Product.t) (cart : Cart.Store) :
  In product products ->
  let st := typed changes (initial products) in
  exists st' added,
    handleAddToCart product st cart = Some (st', added) /\
    animatingProduct st' = Some (Product.id product) /\
    Cart.itemsSet added = true /\
    (Invariant.in_range (Cart.items cart) ->
     Invariant.in_range (Cart.items (Cart.after added))).
Proof.
  intros Hin st.
  destruct (typed_invariant products changes) as [Hr Hk].
  destruct (Hk product Hin) as [q Hq]. fold st in Hq.
  pose proof (Hr _ _ Hq) as Hrange.
  assert (Hok : Cart.rejects (cart_item product q) = false).
  { destruct Hin as [<-|[<-|[<-|[]]]]; reflexivity. }
  unfold handleAddToCart. rewrite Hq. do 2 eexists.
  split; [reflexivity|]. split; [reflexivity|]. simpl.
  unfold Cart.addItem. fold (Cart.rejects (cart_item product q)).
  rewrite Hok. simpl. split; [reflexivity|].
  unfold Invariant.in_range. rewrite !List.Forall_forall.
  intros H line Hline. apply CartExtra.in_addItem_updater in Hline.
  destruct Hline as [Hline|[(old & Hold & ->)| ->]]; simpl; auto.
  - specialize (H old Hold). lia.
  - lia.
Qed.

(** X17: [handleAddToCart] ends with its own success toast whatever
    [addItem] did: for a product whose price the guard of [addItem]
    rejects, the cart is left as it was and the toast is shown all the
    same. *)
Theorem handleAddToCart_always_toasts (product : Product.t) (st : State)
  (cart : Cart.Store) (q : Z) :
  quantities st !! Product.id product = Some q ->
  exists st' added,
    handleAddToCart product st cart = Some (st', added) /\
    last (Cart.notices added)
    = Some (Cart.toast_success "Added to cart successfully!") /\
    (Cart.rejects (cart_item product q) = true ->
     Cart.after added = cart /\ Cart.itemsSet added = false).
Proof.
  intros Hq. unfold handleAddToCart. rewrite Hq. do 2 eexists.
  split; [reflexivity|]. simpl. split.
  - apply last_snoc.
  - intros Hrej. unfold Cart.addItem.
    fold (Cart.rejects (cart_item product q)). rewrite Hrej.
    split; reflexivity.
Qed.

Lemma handleAddToCart_in_range_witness :
  let product := nth 1 products Sample.free_sample in
  let st := typed [(2, "150"); (1, "abc")] (initial products) in
  In product products /\
  exists st' added,
    handleAddToCart product st Sample.one_line_store = Some (st', added) /\
    animatingProduct st' = Some (Product.id product) /\
    Cart.itemsSet added = true /\
    (Invariant.in_range (Cart.items Sample.one_line_store) ->
     Invariant.in_range (Cart.items (Cart.after added))).
Proof.
  intros product st.
  assert (Hin : In product products) by (right; left; reflexivity).
  split; [exact Hin|].
  exact (handleAddToCart_in_range [(2, "150"); (1, "abc")] product
           Sample.one_line_store Hin).
Defined.

Lemma handleAddToCart_always_toasts_witness :
  let product := Sample.free_sample in
  let st := initial products in
  quantities st !! Product.id product = Some 1 /\
  exists st' added,
    handleAddToCart product st Sample.one_line_store = Some (st', added) /\
    last (Cart.notices added)
    = Some (Cart.toast_success "Added to cart successfully!") /\
    (Cart.rejects (cart_item product 1) = true ->
     Cart.after added = Sample.one_line_store /\ Cart.itemsSet added = false).
Proof.
  intros product st.
  assert (Hq : quantities st !! Product.id product = Some 1) by reflexivity.
  split; [exact Hq|].
  exact (handleAddToCart_always_toasts product st Sample.one_line_store 1 Hq).
Defined.

End CarouselTheory.

(** ** The shop page: further properties *)

Module ShopExtra.
Import Shop.

Lemma filter_keeps_order {A : Type} (f : A -> bool) (l : list A) :
  sublist (List.filter f l) l.
Proof.
  induction l as [|x l IH]; simpl; [constructor|].
  destruct (f x); [apply sublist_skip|apply sublist_cons]; exact IH.
Qed.

(** A list in the comparator's order is left as it is. *)
Lemma sort_of_ordered {A : Type} (comparefn : A -> A -> float) (l : list A) :
  StronglySorted (in_order comparefn) l -> sort comparefn l = l.
Proof.
  induction 1 as [|x l Hl IH Hx]; simpl; [reflexivity|].
  rewrite IH. destruct l as [|y l]; simpl; [reflexivity|].
  inversion Hx as [|? ? Hxy _]; subst. unfold in_order in Hxy.
  rewrite Hxy. reflexivity.
Qed.

Section Ordered.

Context {A : Type} (comparefn : A -> A -> float) (l : list A).

Hypothesis total_on : forall a b, In a l -> In b l ->
  in_order comparefn a b \/ in_order comparefn b a.
Hypothesis transitive_on : forall a b c, In a l -> In b l -> In c l ->
  in_order comparefn a b -> in_order comparefn b c -> in_order comparefn a c.

Lemma insert_sorted_on (x : A) (sorted : list A) :
  In x l -> (forall y, In y sorted -> In y l) ->
  StronglySorted (in_order comparefn) sorted ->
  StronglySorted (in_order comparefn) (insert_sorted comparefn x sorted).
Proof.
  intros Hx Hsub. induction 1 as [|y sorted Hs IH Hy]; simpl.
  - repeat constructor.
  - assert (Hyl : In y l) by (apply Hsub; left; reflexivity).
    assert (Hsub' : forall z, In z sorted -> In z l)
      by (intros z Hz; apply Hsub; right; exact Hz).
    destruct (0 <? comparefn x y)%float eqn:E.
    + constructor; [exact (IH Hsub')|].
      apply (Permutation_Forall
               (Permutation_sym (ShopTheory.insert_sorted_perm _ x sorted))).
      constructor; [|exact Hy].
      destruct (total_on x y Hx Hyl) as [H|H]; [|exact H].
      unfold in_order in H. congruence.
    + constructor; [constructor; assumption|].
      constructor; [exact E|].
      rewrite List.Forall_forall in Hy. apply List.Forall_forall.
      intros z Hz. exact (transitive_on x y z Hx Hyl (Hsub' z Hz) E (Hy z Hz)).
Qed.

Lemma sort_sorted_on (part : list A) :
  (forall y, In y part -> In y l) ->
  StronglySorted (in_order comparefn) (sort comparefn part).
Proof.
  induction part as [|x part IH]; intros Hsub; simpl; [constructor|].
  apply insert_sorted_on.
  - apply Hsub. left. reflexivity.
  - intros y Hy. apply Hsub. right.
    exact (Permutation_in _ (ShopTheory.sort_perm comparefn part) Hy).
  - apply IH. intros y Hy. apply Hsub. right. exact Hy.
Qed.

End Ordered.

(** X18: when the products that pass the filter already stand in the order
    of the sort key, the page shows them in that very order: the sort moves
    nothing. *)
Theorem sorted_catalog_unchanged (catalog : list Product.t)
  (filterBy : FilterOption) (sortBy : SortOption) :
  StronglySorted (in_order (compare sortBy))
    (filteredProducts catalog filterBy) ->
  sortedProducts catalog filterBy sortBy = filteredProducts catalog filterBy.
Proof. intros H. unfold sortedProducts. apply sort_of_ordered. exact H. Qed.

(** X19: when the comparator of the sort key is total and transitive on
    the products that pass the filter, the products shown are in the order
    of the comparator, and sorting them once more changes nothing. *)
Theorem sort_orders_once (catalog : list Product.t) (filterBy : FilterOption)
  (sortBy : SortOption) :
  let shown := filteredProducts catalog filterBy in
  (forall a b, In a shown -> In b shown ->
     in_order (compare sortBy) a b \/ in_order (compare sortBy) b a) ->
  (forall a b c, In a shown -> In b shown -> In c shown ->
     in_order (compare sortBy) a b -> in_order (compare sortBy) b c ->
     in_order (compare sortBy) a c) ->
  StronglySorted (in_order (compare sortBy))
    (sortedProducts catalog filterBy sortBy) /\
  sort (compare sortBy) (sortedProducts catalog filterBy sortBy)
  = sortedProducts catalog filterBy sortBy.
Proof.
  intros shown Htotal Htrans.
  assert (Hs : StronglySorted (in_order (compare sortBy))
                 (sortedProducts catalog filterBy sortBy)).
  { unfold sortedProducts. fold shown.
    apply (sort_sorted_on (compare sortBy) shown Htotal Htrans shown).
    auto. }
  split; [exact Hs|]. apply sort_of_ordered. exact Hs.
Qed.

(** X20: the filter keeps the products in catalog order, dropping some;
    with the tag "all" it drops none, so that the page as first rendered,
    with "all" and "featured", shows the catalog as it is. *)
Theorem filter_keeps_catalog_order (catalog : list Product.t)
  (filterBy : FilterOption) :
  sublist (filteredProducts catalog filterBy) catalog /\
  filteredProducts catalog all = catalog /\
  sortedProducts catalog all featured = catalog.
Proof.
  assert (Hall : filteredProducts catalog all = catalog).
  { unfold filteredProducts. induction catalog as [|x l IH]; simpl;
      [reflexivity|]. f_equal. exact IH. }
  split; [apply filter_keeps_order|]. split; [exact Hall|].
  unfold sortedProducts. rewrite Hall.
  apply ShopTheory.sort_stable_id. reflexivity.
Qed.

Lemma sorted_catalog_unchanged_witness :
  StronglySorted (in_order (compare price_low))
    (filteredProducts products all) /\
  sortedProducts products all price_low = filteredProducts products all.
Proof.
  assert (H : StronglySorted (in_order (compare price_low))
                (filteredProducts products all))
    by (repeat constructor).
  split; [exact H|].
  exact (sorted_catalog_unchanged products all price_low H).
Defined.

Lemma sort_orders_once_witness :
  let shown := filteredProducts products overnight in
  (forall a b, In a shown -> In b shown ->
     in_order (compare newest) a b \/ in_order (compare newest) b a) /\
  (forall a b c, In a shown -> In b shown -> In c shown ->
     in_order (compare newest) a b -> in_order (compare newest) b c ->
     in_order (compare newest) a c) /\
  StronglySorted (in_order (compare newest))
    (sortedProducts products overnight newest) /\
  sort (compare newest) (sortedProducts products overnight newest)
  = sortedProducts products overnight newest.
Proof.
  intros shown.
  assert (Htotal : forall a b, In a shown -> In b shown ->
            in_order (compare newest) a b \/ in_order (compare newest) b a).
  { intros a b [<-|[<-|[]]] [<-|[<-|[]]];
      first [left; reflexivity|right; reflexivity]. }
  assert (Htrans : forall a b c, In a shown -> In b shown -> In c shown ->
            in_order (compare newest) a b -> in_order (compare newest) b c ->
            in_order (compare newest) a c).
  { intros a b c [<-|[<-|[]]] [<-|[<-|[]]] [<-|[<-|[]]] H1 H2;
      first [reflexivity|discriminate H1|discriminate H2]. }
  split; [exact Htotal|]. split; [exact Htrans|].
  exact (sort_orders_once products overnight newest Htotal Htrans).
Defined.

End ShopExtra.
